(** * OpenID-Connect authentication service: a shallow embedding

    Source: [src/nagare/services/security/oidc_auth.py] (class
    [Authentication]).  The methods of the class are embedded as
    functions in a small state-and-exception monad over the instance
    ([self]) and a trace of the observable effects (HTTP requests, log
    records, decryptions).  The collaborators the class only calls
    ([requests], [time], the cipher of [cookie_auth], [jose]) are the
    fields of the class [Host]. *)

From stdpp Require Import base option list gmap strings.
From Stdlib Require Import ZArith Ascii String DecimalString DecimalPos Lia.

Local Open Scope string_scope.
Local Open Scope Z_scope.

(** ** Python values *)

(** The dynamically typed values the module handles: [None], booleans,
    integers, [str], lists and string-keyed dicts (decoded JSON, query
    parameters, claims).  A JSON number with a fraction has no counterpart
    here.  A [str] is modelled by [string]: a sequence of code
    points below 256, which is what a decoded HTTP header holds and enough to
    tell ASCII from non-ASCII text. *)
#[warnings="-register-all"]
Inductive pyval :=
  | VNone
  | VBool (b : bool)
  | VInt (z : Z)
  | VStr (s : string)
  | VList (l : list pyval)
  | VDict (d : gmap string pyval).

Abbreviation bytes := (list Byte.byte).
Abbreviation pydict := (gmap string pyval).

(** The values above that can be the key of a [dict] or the element of a
    [set], up to the equality these use: [True] is [1] and [False] is [0]. *)
Inductive hkey :=
  | KNone
  | KInt (z : Z)
  | KStr (s : string).

#[global] Instance hkey_eq_dec : EqDecision hkey.
Proof. solve_decision. Defined.

#[global] Instance hkey_countable : Countable hkey :=
  inj_countable'
    (λ k, match k with KNone => inl () | KInt z => inr (inl z) | KStr s => inr (inr s) end)
    (λ x, match x with inl _ => KNone | inr (inl z) => KInt z | inr (inr s) => KStr s end)
    (λ k, match k with KNone => eq_refl | KInt _ => eq_refl | KStr _ => eq_refl end).

(** A [dict] whose keys are not all [str]: the signing keys by identifier. *)
Abbreviation key_table := (gmap hkey pyval).

(** The [key] argument of [jwt.decode]: one stored key, or the whole mapping
    of them. *)
Inductive jwt_key :=
  | KeyOf (key : pyval)
  | KeyTable (keys : key_table).

(** Truth value of an object, as tested by [if], [and], [or], [not]. *)
Definition truthy (v : pyval) : bool :=
  match v with
  | VNone => false
  | VBool b => b
  | VInt z => negb (z =? 0)
  | VStr s => negb (String.eqb s "")
  | VList l => match l with [] => false | _ => true end
  | VDict d => negb (bool_decide (size d = 0%nat))
  end.

(** [x or y] *)
Definition py_or (x y : pyval) : pyval := if truthy x then x else y.

(** [d.get(k)]: [None] when the key is missing. *)
Definition dict_get (d : pydict) (k : string) : pyval := default VNone (d !! k).

(** ** Exceptions and results *)

(** An element of [e.args]: a value, or another exception ([jwt.decode] of
    [jose] wraps the [JWSError] of a bad signature in a [JWTError], whose
    first argument is then that exception and no [str]). *)
Inductive exn_arg :=
  | ArgValue (v : pyval)
  | ArgException (description : string).

(** [JOSEError] stands for the class and its subclasses ([JWTError],
    [JWSError], [ExpiredSignatureError], ...), with the arguments it was
    raised with. *)
Inductive exn :=
  | HTTPError (status : Z)
  | TransportError
  | JSONDecodeError
  | InvalidToken
  | JOSEError (args : list exn_arg)
  | UnicodeEncodeError
  | UnicodeDecodeError
  | ValueError
  | OverflowError
  | KeyError (k : string)
  | IndexError
  | TypeError
  | AttributeError.

Inductive result (A : Type) :=
  | Ok (a : A)
  | Raise (e : exn).
Arguments Ok {A} a.
Arguments Raise {A} e.

Definition is_raise {A} (r : result A) : bool :=
  match r with Ok _ => false | Raise _ => true end.

(** A value as the key of a [dict] or the element of a [set]: lists and
    dicts are not hashable. *)
Definition py_hashable (v : pyval) : result hkey :=
  match v with
  | VNone => Ok KNone
  | VBool b => Ok (KInt (if b then 1 else 0))
  | VInt z => Ok (KInt z)
  | VStr s => Ok (KStr s)
  | VList _ | VDict _ => Raise TypeError
  end.

Definition is_number (k : hkey) : bool :=
  match k with KInt _ => true | _ => false end.

Definition is_text (k : hkey) : bool :=
  match k with KStr _ => true | _ => false end.

(** [sorted(ks)]: numbers are ordered among themselves and so are strings,
    but ['<'] between a number, a string and [None], or between [None] and
    itself, raises [TypeError], and a sort of two elements or more compares
    across the kinds when there is more than one.  The sorted list is
    determined by the set, which stands for it. *)
Definition py_sorted (ks : gset hkey) : result (gset hkey) :=
  if bool_decide (size ks ≤ 1)%nat
     || forallb is_number (elements ks) || forallb is_text (elements ks)
  then Ok ks else Raise TypeError.

(** ** Strings and bytes *)

Definition is_ascii_char (c : ascii) : bool := (N_of_ascii c <? 128)%N.

Fixpoint str_forall (p : ascii → bool) (s : string) : bool :=
  match s with
  | EmptyString => true
  | String c s' => p c && str_forall p s'
  end.

Fixpoint str_contains (c : ascii) (s : string) : bool :=
  match s with
  | EmptyString => false
  | String c' s' => Ascii.eqb c' c || str_contains c s'
  end.

(** [s.encode('ascii')] *)
Definition encode_ascii (s : string) : result bytes :=
  if str_forall is_ascii_char s then Ok (list_byte_of_string s)
  else Raise UnicodeEncodeError.

(** [b.decode('ascii')] *)
Definition decode_ascii (b : bytes) : result string :=
  if forallb (λ x, is_ascii_char (ascii_of_byte x)) b then Ok (string_of_list_byte b)
  else Raise UnicodeDecodeError.

(** [s.split(sep)] for a one-character separator: never empty. *)
Fixpoint split (sep : ascii) (s : string) : list string :=
  match s with
  | EmptyString => [""]
  | String c s' =>
      if Ascii.eqb c sep then "" :: split sep s'
      else match split sep s' with
           | [] => [String c ""]
           | hd :: tl => String c hd :: tl
           end
  end.

Fixpoint join (sep : string) (l : list string) : string :=
  match l with
  | [] => ""
  | [x] => x
  | x :: l' => x +:+ sep +:+ join sep l'
  end.

(** [s.rsplit(sep, 1)]: at most one split, at the last separator. *)
Definition rsplit1 (sep : ascii) (s : string) : list string :=
  match reverse (split sep s) with
  | [] => [s]
  | [_] => [s]
  | lst :: before => [join (String sep "") (reverse before); lst]
  end.

(** Whitespace as [str.strip()] and [str.isspace()] see it, below code
    point 256. *)
Definition py_isspace (c : ascii) : bool :=
  let n := N_of_ascii c in
  ((9 <=? n) && (n <=? 13) || (28 <=? n) && (n <=? 32) || (n =? 133) || (n =? 160))%N.

(** Whitespace as [int()] skips it around a numeral: the separators of code
    points 28 to 31 are not part of it. *)
Definition int_isspace (c : ascii) : bool :=
  let n := N_of_ascii c in
  ((9 <=? n) && (n <=? 13) || (n =? 32) || (n =? 133) || (n =? 160))%N.

Fixpoint lstrip (space : ascii → bool) (s : string) : string :=
  match s with
  | EmptyString => ""
  | String c s' => if space c then lstrip space s' else s
  end.

Fixpoint rstrip (space : ascii → bool) (s : string) : string :=
  match s with
  | EmptyString => ""
  | String c s' =>
      match rstrip space s' with
      | EmptyString => if space c then "" else String c ""
      | t => String c t
      end
  end.

(** [s.strip()] *)
Definition strip (s : string) : string := rstrip py_isspace (lstrip py_isspace s).

Definition digit_value (c : ascii) : option N :=
  let n := N_of_ascii c in
  if ((48 <=? n) && (n <=? 57))%N then Some (n - 48)%N else None.

(** [c.isdigit()]: the decimal digits and the superscripts one, two, three. *)
Definition py_isdigit_char (c : ascii) : bool :=
  let n := N_of_ascii c in
  ((48 <=? n) && (n <=? 57) || (n =? 178) || (n =? 179) || (n =? 185))%N.

(** [s.isdigit()] *)
Definition isdigit (s : string) : bool :=
  negb (String.eqb s "") && str_forall py_isdigit_char s.

(** The digits of an [int()] literal: decimal digits, with single
    underscores between digits. *)
Fixpoint int_digits (s : string) (after_digit : bool) (acc : N) : option N :=
  match s with
  | EmptyString => if after_digit then Some acc else None
  | String c s' =>
      match digit_value c with
      | Some d => int_digits s' true (acc * 10 + d)%N
      | None =>
          if Ascii.eqb c "_" && after_digit then int_digits s' false acc else None
      end
  end.

(** [int(s)] for a [str]: surrounding whitespace, an optional sign, digits.
    The interpreter's limit on the digits of a conversion between [int] and
    [str] is a setting of its own ([sys.set_int_max_str_digits], where zero
    turns it off) and is taken as turned off, here and in ['%d']. *)
Definition int_of_str (s : string) : result Z :=
  let body (t : string) := int_digits t false 0%N in
  let '(negative, digits) :=
    match rstrip int_isspace (lstrip int_isspace s) with
    | String c t =>
        if Ascii.eqb c "-" then (true, t)
        else if Ascii.eqb c "+" then (false, t)
        else (false, String c t)
    | EmptyString => (false, "")
    end in
  match body digits with
  | Some n => Ok (if negative then - Z.of_N n else Z.of_N n)
  | None => Raise ValueError
  end.

(** [int(x)] *)
Definition py_int (v : pyval) : result Z :=
  match v with
  | VInt z => Ok z
  | VBool b => Ok (if b then 1 else 0)
  | VStr s => int_of_str s
  | _ => Raise TypeError
  end.

(** ['%d' % z] *)
Definition format_d (z : Z) : string :=
  match z with
  | 0 => "0"
  | Z.pos p => NilEmpty.string_of_uint (Pos.to_uint p)
  | Z.neg p => String "-" (NilEmpty.string_of_uint (Pos.to_uint p))
  end.

(** ['%05d' % z]: zero-padded to five characters, the sign included. *)
Definition format_05d (z : Z) : string :=
  let digits := NilEmpty.string_of_uint (N.to_uint (Z.abs_N z)) in
  let digits := if (z =? 0) then "0" else digits in
  let sign := if (z <? 0) then "-" else "" in
  let width := (5 - String.length sign - String.length digits)%nat in
  sign +:+ string_of_list_ascii (replicate width "0"%char) +:+ digits.

(** ** HTTP exchanges *)

(** The arguments [send_request] hands to [requests.request]. *)
Record http_request := {
  rq_method : pyval;
  rq_url : pyval;
  rq_params : pyval;
  rq_data : pyval;
}.

(** What the module reads of a [requests.Response].  Header names are kept in
    lower case (the mapping is case-insensitive); [json_body] is the value of
    [response.json()], an exception when the body does not decode. *)
Record http_response := {
  status_code : Z;
  headers : gmap string string;
  text : string;
  json_body : result pyval;
}.

(** [Response.raise_for_status()] of [requests]: client and server error
    statuses raise [HTTPError]. *)
Definition raise_for_status (r : http_response) : result unit :=
  if (400 <=? status_code r) && (status_code r <? 600)
  then Raise (HTTPError (status_code r)) else Ok tt.

(** ** The instance and its collaborators *)

(** The fields of an [Authentication] instance that the methods below read or
    write ([__init__], lines 150-182).  [cookie] is the truth value of the
    base class's [self.cookie]. *)
Record authentication := {
  ident : string;
  client_id : pyval;
  client_secret : pyval;
  secure : bool;
  algorithms : pyval;
  issuer : pyval;
  jwks_uri : pyval;
  jwks_expiration : option Z;
  signing_keys : key_table;
  time_skew : pyval;
  endpoints : pydict;
  cookie : bool;
}.

(** The incoming request: its query parameters, the URL
    [request.create_redirect_url()] answers, and [environ['QUERY_STRING']]. *)
Record request := {
  params : gmap string string;
  redirect_url : pyval;
  query_string : string;
}.

(** The arguments of [request.create_redirect_response(response=..., _s=...,
    _c=...)]. *)
Record redirect := {
  redirect_s : Z;
  redirect_c : string;
}.

Inductive log_message :=
  | MsgValue (v : pyval)
  | MsgAuthenticationError
  | MsgInvalidIdToken (detail : string)
  | MsgNewKeys (old new : gset hkey)
  | MsgSameKeys (ks : gset hkey)
  | MsgMaxAge (max_age : string)
  | MsgNoExpiration
  | MsgMissingEndpoints (names : list string).

Inductive event :=
  | EvRequest (rq : http_request)
  | EvError (m : log_message)
  | EvDebug (m : log_message)
  | EvDecrypt (token : bytes)
  | EvRegister (name : string).

(** What the class calls and does not define: the HTTP client, the clock
    (the n-th reading of [time.time()]), the cipher inherited from
    [cookie_auth.Authentication], the [jose] functions and the base class's
    [get_principal] and [logout].  Times are counted in seconds on the
    integers: nothing below depends on the fraction of a second of a clock
    reading. *)
Class Host := {
  requests_request : http_request → result http_response;
  time_time : nat → Z;
  encrypt : bytes → bytes;
  decrypt : bytes → result bytes;
  jws_get_unverified_header : pyval → result pydict;
  jwt_decode : pyval → jwt_key → pyval → pydict → pyval → pyval → pyval → result pydict;
  base_get_principal : request → result (pyval * pydict);
  base_logout : pyval → pyval → pyval → result pyval;
}.

(** ** The monad: instance state, trace of effects, exceptions *)

Record world := {
  self : authentication;
  trace : list event;
  clock : nat;
}.

Definition M (A : Type) : Type := world → result A * world.

Definition ret {A} (a : A) : M A := λ w, (Ok a, w).
Definition raise {A} (e : exn) : M A := λ w, (Raise e, w).
Definition bind {A B} (m : M A) (k : A → M B) : M B :=
  λ w, match m w with
       | (Ok a, w') => k a w'
       | (Raise e, w') => (Raise e, w')
       end.

(** [try: m except E: h] for the exceptions [catches] selects. *)
Definition try_except {A} (m : M A) (catches : exn → bool) (h : exn → M A) : M A :=
  λ w, match m w with
       | (Ok a, w') => (Ok a, w')
       | (Raise e, w') => if catches e then h e w' else (Raise e, w')
       end.

#[global] Instance M_ret : MRet M := @ret.
#[global] Instance M_bind : MBind M := λ A B k m, bind m k.

#[global] Instance result_ret : MRet result := @Ok.
#[global] Instance result_bind : MBind result :=
  λ A B k r, match r with Ok a => k a | Raise e => Raise e end.

Definition lift {A} (r : result A) : M A := λ w, (r, w).
Definition get_self : M authentication := λ w, (Ok (self w), w).
Definition modify_self (f : authentication → authentication) : M unit :=
  λ w, (Ok tt, {| self := f (self w); trace := trace w; clock := clock w |}).
Definition log_event (e : event) (w : world) : world :=
  {| self := self w; trace := (trace w ++ [e])%list; clock := clock w |}.
Definition emit (e : event) : M unit := λ w, (Ok tt, log_event e w).

Definition set_issuer (v : pyval) (a : authentication) : authentication :=
  {| ident := ident a; client_id := client_id a; client_secret := client_secret a;
     secure := secure a; algorithms := algorithms a; issuer := v;
     jwks_uri := jwks_uri a; jwks_expiration := jwks_expiration a;
     signing_keys := signing_keys a; time_skew := time_skew a;
     endpoints := endpoints a; cookie := cookie a |}.

Definition set_jwks_uri (v : pyval) (a : authentication) : authentication :=
  {| ident := ident a; client_id := client_id a; client_secret := client_secret a;
     secure := secure a; algorithms := algorithms a; issuer := issuer a;
     jwks_uri := v; jwks_expiration := jwks_expiration a;
     signing_keys := signing_keys a; time_skew := time_skew a;
     endpoints := endpoints a; cookie := cookie a |}.

Definition set_jwks_expiration (v : option Z) (a : authentication) : authentication :=
  {| ident := ident a; client_id := client_id a; client_secret := client_secret a;
     secure := secure a; algorithms := algorithms a; issuer := issuer a;
     jwks_uri := jwks_uri a; jwks_expiration := v;
     signing_keys := signing_keys a; time_skew := time_skew a;
     endpoints := endpoints a; cookie := cookie a |}.

Definition set_signing_keys (v : key_table) (a : authentication) : authentication :=
  {| ident := ident a; client_id := client_id a; client_secret := client_secret a;
     secure := secure a; algorithms := algorithms a; issuer := issuer a;
     jwks_uri := jwks_uri a; jwks_expiration := jwks_expiration a;
     signing_keys := v; time_skew := time_skew a;
     endpoints := endpoints a; cookie := cookie a |}.

Definition set_endpoints (v : pydict) (a : authentication) : authentication :=
  {| ident := ident a; client_id := client_id a; client_secret := client_secret a;
     secure := secure a; algorithms := algorithms a; issuer := issuer a;
     jwks_uri := jwks_uri a; jwks_expiration := jwks_expiration a;
     signing_keys := signing_keys a; time_skew := time_skew a;
     endpoints := v; cookie := cookie a |}.

(** Subscription [d[k]] of a dict. *)
Definition dict_item (d : pydict) (k : string) : result pyval :=
  match d !! k with
  | Some v => Ok v
  | None => Raise (KeyError k)
  end.

(** [v[k]] for a string [k]: only a dict has string subscripts. *)
Definition subscript (v : pyval) (k : string) : result pyval :=
  match v with
  | VDict d => dict_item d k
  | _ => Raise TypeError
  end.

(** The receiver of a [.get(...)] call: only dicts have the method here. *)
Definition get_method (v : pyval) : result pydict :=
  match v with
  | VDict d => Ok d
  | _ => Raise AttributeError
  end.

(** The elements a [for] loop draws from a value. *)
Definition py_iter (v : pyval) : result (list pyval) :=
  match v with
  | VList l => Ok l
  | VDict d => Ok (VStr <$> (map_to_list d).*1)
  | VStr s => Ok ((λ c, VStr (String c "")) <$> list_ascii_of_string s)
  | _ => Raise TypeError
  end.

(** [x + y] for two [str]. *)
Definition str_add (x y : pyval) : result pyval :=
  match x, y with
  | VStr a, VStr b => Ok (VStr (a +:+ b))
  | _, _ => Raise TypeError
  end.

Fixpoint mapM {A B} (f : A → result B) (l : list A) : result (list B) :=
  match l with
  | [] => Ok []
  | x :: l' =>
      match f x with
      | Raise e => Raise e
      | Ok y => match mapM f l' with
                | Raise e => Raise e
                | Ok ys => Ok (y :: ys)
                end
      end
  end.

(** ** Class constants (lines 78-84) *)

Definition REQUIRED_ENDPOINTS : list string :=
  ["authorization_endpoint"; "token_endpoint"].

Definition ENDPOINTS : list string :=
  (REQUIRED_ENDPOINTS ++ ["discovery_endpoint"; "userinfo_endpoint"; "end_session_endpoint"])%list.

Definition EXCLUDED_CLAIMS : gset string :=
  list_to_set ["iss"; "aud"; "exp"; "iat"; "auth_time"; "nonce"; "acr"; "amr"; "azp"]
  ∪ list_to_set ["session_state"; "typ"; "nbf"].

(** ** Methods of [Authentication] *)

Section methods.
Context `{Host}.

(** [time.time()]: the next reading of the clock. *)
Definition time_now : M Z :=
  λ w, (Ok (time_time (clock w)),
        {| self := self w; trace := trace w; clock := S (clock w) |}).

(** Lines 184-195.  The transport options ([verify], [timeout], [proxies])
    belong to the HTTP client. *)
Definition send_request (method url params data : pyval) : M http_response :=
  let rq := {| rq_method := method; rq_url := url;
               rq_params := py_or params (VDict ∅);
               rq_data := py_or data (VDict ∅) |} in
  emit (EvRequest rq);;
  r ← lift (requests_request rq);
  lift (raise_for_status r);;
  mret r.

(** Lines 197-200. *)
Definition create_discovery_request : M (pyval * pyval * pyval * pyval) :=
  a ← get_self;
  discovery_endpoint ← lift (dict_item (endpoints a) "discovery_endpoint");
  mret (match discovery_endpoint with
        | VNone => (VNone, VNone, VNone, VNone)
        | _ => (VStr "GET", discovery_endpoint, VDict ∅, VDict ∅)
        end).

(** Lines 202-217.  The scopes are joined in the iteration order of a set,
    which Python leaves unspecified: here that of [elements]. *)
Definition create_auth_request (session_id state_id : Z) (action_id : pyval)
    (redirect_url : pyval) (scopes : list string) (extra : pydict)
    : M (pyval * pyval * pyval * pyval) :=
  a ← get_self;
  action ← lift (match py_or action_id (VStr "") with
                 | VStr s => encode_ascii s
                 | _ => Raise AttributeError
                 end);
  let state : bytes :=
    (list_byte_of_string (format_d session_id) ++ list_byte_of_string "#"
     ++ list_byte_of_string (format_d state_id) ++ list_byte_of_string "#" ++ action)%list in
  let scope := join " " (elements ({[ "openid" ]} ∪ list_to_set scopes : gset string)) in
  token ← lift (decode_ascii (encrypt state));
  let base : pydict :=
    <["response_type" := VStr "code"]> (
    <["client_id" := client_id a]> (
    <["redirect_uri" := redirect_url]> (
    <["scope" := VStr scope]> (
    <["access_type" := VStr "offline"]> (
    <["state" := VStr ("#" +:+ ident a +:+ "#" +:+ token)]> ∅))))) in
  authorization_endpoint ← lift (dict_item (endpoints a) "authorization_endpoint");
  mret (VStr "GET", authorization_endpoint, VDict (extra ∪ base), VDict ∅).

(** Lines 219-228. *)
Definition create_token_request (redirect_url code : pyval)
    : M (pyval * pyval * pyval * pyval) :=
  a ← get_self;
  let payload : pydict :=
    <["grant_type" := VStr "authorization_code"]> (
    <["code" := code]> (
    <["redirect_uri" := redirect_url]> (
    <["client_id" := client_id a]> (
    <["client_secret" := client_secret a]> ∅)))) in
  token_endpoint ← lift (dict_item (endpoints a) "token_endpoint");
  mret (VStr "POST", token_endpoint, VDict ∅, VDict payload).

(** Lines 230-238. *)
Definition create_refresh_token_request (refresh_token : pyval)
    : M (pyval * pyval * pyval * pyval) :=
  a ← get_self;
  let payload : pydict :=
    <["grant_type" := VStr "refresh_token"]> (
    <["client_id" := client_id a]> (
    <["client_secret" := client_secret a]> (
    <["refresh_token" := refresh_token]> ∅))) in
  token_endpoint ← lift (dict_item (endpoints a) "token_endpoint");
  mret (VStr "POST", token_endpoint, VDict ∅, VDict payload).

(** Lines 240-243. *)
Definition create_end_session_request (refresh_token : pyval)
    : M (pyval * pyval * pyval * pyval) :=
  a ← get_self;
  let payload : pydict :=
    <["client_id" := client_id a]> (
    <["client_secret" := client_secret a]> (
    <["refresh_token" := refresh_token]> ∅)) in
  end_session_endpoint ← lift (dict_item (endpoints a) "end_session_endpoint");
  mret (VStr "POST", end_session_endpoint, VDict ∅, VDict payload).

(** Lines 245-246. *)
Definition create_userinfo_request (access_token : pyval)
    : M (pyval * pyval * pyval * pyval) :=
  a ← get_self;
  mret (VStr "POST", dict_get (endpoints a) "userinfo_endpoint", VDict ∅,
        VDict (<["access_token" := access_token]> ∅)).

(** Line 249: the staleness test that guards the refresh. *)
Definition fetch_keys_stale : M bool :=
  a ← get_self;
  if truthy (jwks_uri a) then
    match jwks_expiration a with
    | Some expiration =>
        if negb (expiration =? 0) then
          now ← time_now;
          mret (expiration <? now)
        else mret false
    | None => mret false
    end
  else mret false.

(** [key['kid']] as an element of a set of key identifiers (line 255): any
    hashable value will do. *)
Definition key_kid (key : pyval) : result hkey :=
  kid ← subscript key "kid";
  py_hashable kid.

(** [key.pop('kid', None): key] (line 260). *)
Definition key_entry (key : pyval) : result (hkey * pyval) :=
  kid ← key_kid key;
  match key with
  | VDict d => Ok (kid, VDict (delete "kid" d))
  | _ => Raise TypeError
  end.

(** A dict built by a comprehension: later items overwrite earlier ones. *)
Definition dict_of_items `{Countable K} {V} (items : list (K * V)) : gmap K V :=
  foldl (λ m kv, <[kv.1 := kv.2]> m) ∅ items.

(** Lines 264-265: the directives of a [Cache-Control] header. *)
Definition cache_controls (header : string) : result (gmap string string) :=
  let parts := split "=" <$> List.filter (str_contains "=") (split "," header) in
  pairs ← mapM (λ kv, match kv with
                      | [k; v] => Ok (strip k, strip v)
                      | _ => Raise ValueError
                      end) parts;
  Ok (dict_of_items pairs).

(** The first [int] that has no [float]: it rounds to two to the 1024. *)
Definition float_overflow : Z := 2 ^ 1024 - 2 ^ 970.

(** [x + n] for a [float] [x] and an [int] [n] (line 270): the [int] is
    converted to a [float] first, which raises [OverflowError] when it is too
    large.  Time is counted in whole seconds here, and the sum is exact. *)
Definition float_add_int (x n : Z) : result Z :=
  if float_overflow <=? Z.abs n then Raise OverflowError else Ok (x + n).

(** Lines 251-273: the body of the [with self.jwks_lock] block. *)
Definition fetch_keys_refresh : M unit :=
  a ← get_self;
  certs ← send_request (VStr "GET") (jwks_uri a) VNone VNone;
  body ← lift (json_body certs);
  document ← lift (get_method body);
  let new_keys := default (VList []) (document !! "keys") in
  keys ← lift (py_iter new_keys);
  kids ← lift (mapM key_kid keys);
  let new_keys_id : gset hkey := list_to_set kids in
  (if bool_decide (new_keys_id ≠ dom (signing_keys a)) then
     old ← lift (py_sorted (dom (signing_keys a)));
     new ← lift (py_sorted new_keys_id);
     emit (EvDebug (MsgNewKeys old new));;
     entries ← lift (mapM key_entry keys);
     modify_self (set_signing_keys (dict_of_items entries))
   else
     old ← lift (py_sorted (dom (signing_keys a)));
     emit (EvDebug (MsgSameKeys old)));;
  header ← lift (match headers certs !! "cache-control" with
                 | Some v => Ok v
                 | None => Raise (KeyError "cache-control")
                 end);
  controls ← lift (cache_controls header);
  match controls !! "max-age" with
  | Some max_age =>
      if negb (String.eqb max_age "") && isdigit max_age then
        emit (EvDebug (MsgMaxAge max_age));;
        now ← time_now;
        seconds ← lift (int_of_str max_age);
        expiration ← lift (float_add_int now seconds);
        modify_self (set_jwks_expiration (Some expiration))
      else
        emit (EvDebug MsgNoExpiration);;
        modify_self (set_jwks_expiration None)
  | None =>
      emit (EvDebug MsgNoExpiration);;
      modify_self (set_jwks_expiration None)
  end.

(** Lines 248-273, run by one thread: the lock is free, taken around the
    refresh and released on the way out. *)
Definition fetch_keys : M unit :=
  stale ← fetch_keys_stale;
  if (stale : bool) then fetch_keys_refresh else mret tt.

(** Lines 278-286: the discovery document, when a discovery endpoint is set. *)
Definition handle_start_discovery : M unit :=
  '(method, url, query, data) ← create_discovery_request;
  if truthy url then
    response ← send_request method url query data;
    r ← lift (json_body response);
    new_issuer ← lift (subscript r "issuer");
    modify_self (set_issuer new_issuer);;
    document ← lift (get_method r);
    modify_self (set_endpoints
      (dict_of_items ((λ endpoint, (endpoint, dict_get document endpoint)) <$> ENDPOINTS)));;
    let new_jwks_uri := dict_get document "jwks_uri" in
    a ← get_self;
    if truthy new_jwks_uri && negb (truthy (jwks_uri a))
    then modify_self (set_jwks_uri new_jwks_uri)
    else mret tt
  else mret tt.

(** Lines 288-294: the keys are marked stale, the required endpoints checked
    and the keys fetched. *)
Definition handle_start_keys : M unit :=
  now ← time_now;
  modify_self (set_jwks_expiration (Some (now - 1)));;
  a ← get_self;
  values ← lift (mapM (λ endpoint, v ← dict_item (endpoints a) endpoint; Ok (endpoint, v))
                      REQUIRED_ENDPOINTS);
  let missing_endpoints := (List.filter (λ ev, negb (truthy ev.2)) values).*1 in
  (match missing_endpoints with
   | [] => mret tt
   | _ => emit (EvError (MsgMissingEndpoints missing_endpoints))
   end);;
  fetch_keys.

(** Lines 275-294. *)
Definition handle_start : M unit :=
  a ← get_self;
  emit (EvRegister (ident a));;
  handle_start_discovery;;
  handle_start_keys.

(** Lines 300-302. *)
Definition refresh_token (token : pyval) : M http_response :=
  '(method, url, query, data) ← create_refresh_token_request token;
  send_request method url query data.

(** Lines 304-318.  The first component is [code]: [None] or a [str]. *)
Definition is_auth_response (rq : request) : M (pyval * Z * Z * string) :=
  let state := default "" (params rq !! "state") in
  let code := from_option VStr VNone (params rq !! "code") in
  '(code, session_id, state_id, action_id) ←
    (if truthy code && String.prefix "#" state then
       state ← lift (match rsplit1 "#" state !! 1%nat with
                     | Some part => Ok part
                     | None => Raise IndexError
                     end);
       try_except
         (token ← lift (encode_ascii state);
          emit (EvDecrypt token);;
          clear ← lift (decrypt token);
          state ← lift (decode_ascii clear);
          match split "#" state with
          | [session_id; state_id; action_id] =>
              mret (code, VStr session_id, VStr state_id, action_id)
          | _ => raise ValueError
          end)
         (λ e, match e with InvalidToken => true | _ => false end)
         (λ _, mret (VNone, VInt 0, VInt 0, ""))
     else mret (code, VInt 0, VInt 0, ""));
  session_id ← lift (py_int session_id);
  state_id ← lift (py_int state_id);
  mret (code, session_id, state_id, action_id).

(** Lines 347-349. *)
Definition filter_credentials (credentials : pydict) (to_keep : gset string) : pydict :=
  filter (λ kv, kv.1 ∈ to_keep) credentials.

(** Lines 340-345.  A session is [None] or a dict. *)
Definition session_truthy (session : option pydict) : bool :=
  match session with
  | Some d => truthy (VDict d)
  | None => false
  end.

Definition retrieve_credentials (session : option pydict) : M (pyval * pydict) :=
  a ← get_self;
  match session with
  | Some d =>
      if cookie a || negb (session_truthy session) then mret (VNone, ∅)
      else
        credentials ← lift (get_method (default (VDict ∅) (d !! "nagare.credentials")));
        mret (dict_get credentials "sub", credentials)
  | None => mret (VNone, ∅)
  end.

(** Lines 351-353: the session after the call. *)
Definition store_credentials (session : option pydict) (credentials : pydict)
    : M (option pydict) :=
  a ← get_self;
  match session with
  | Some d =>
      if negb (cookie a) && session_truthy session then
        mret (Some (<["nagare.credentials" := VDict (filter_credentials credentials {[ "sub" ]})]> d))
      else mret session
  | None => mret session
  end.

(** ['error' in response] (line 364). *)
Definition contains_error (v : pyval) : result bool :=
  match v with
  | VDict d => Ok (bool_decide (is_Some (d !! "error")))
  | VList l => Ok (existsb (λ x, match x with VStr s => String.eqb s "error" | _ => false end) l)
  | VStr s => Ok (bool_decide (is_Some (String.index 0 "error" s)))
  | _ => Raise TypeError
  end.

(** [self.signing_keys.get(kid, self.signing_keys)] (line 378). *)
Definition select_key (keys : key_table) (kid : pyval) : result jwt_key :=
  k ← py_hashable kid;
  Ok (match keys !! k with
      | Some key => KeyOf key
      | None => KeyTable keys
      end).

(** Line 402: [request.environ['QUERY_STRING'] = action_id + '=']. *)
Definition trigger_action (action_id : string) (rq : request) : request :=
  {| params := params rq; redirect_url := redirect_url rq;
     query_string := action_id +:+ "=" |}.

(** Lines 380-392: the call of [jwt.decode]. *)
Definition decode_id_token (a : authentication) (tokens : pydict) (id_token : pyval)
    (key : jwt_key) : result pydict :=
  let options : pydict :=
    <["verify_iss" := VBool (match issuer a with VNone => false | _ => true end)]> (
    <["verify_at_hash" := VBool (bool_decide (is_Some (tokens !! "access_token")))]> (
    <["leeway" := time_skew a]> ∅)) in
  jwt_decode id_token key (if secure a then algorithms a else VNone) options
    (client_id a) (issuer a) (dict_get tokens "access_token").

(** Line 394: [e.args[0]] as the right operand of ['Invalid id_token: ' +].
    An exception raised without arguments has no first one, and only a [str]
    can be added to a [str]. *)
Definition invalid_id_token_detail (e : exn) : result string :=
  match e with
  | JOSEError [] => Raise IndexError
  | JOSEError (ArgValue (VStr message) :: _) => Ok message
  | JOSEError (_ :: _) => Raise TypeError
  | _ => Raise TypeError
  end.

(** Lines 396-399: the tokens of the response added to the claims. *)
Definition with_tokens (tokens : pydict) (access_token : pyval) (credentials : pydict)
    : pydict :=
  let credentials := <["access_token" := access_token]> credentials in
  match dict_get tokens "refresh_token" with
  | VNone => credentials
  | token => <["refresh_token" := token]> credentials
  end.

(** Lines 355-404: the credentials, and the request with its query string
    rewritten when an action is pending. *)
Definition request_credentials (rq : request) (code : pyval) (action_id : string)
    : M (pydict * request) :=
  a ← get_self;
  '(method, url, query, data) ← create_token_request (redirect_url rq) code;
  response ← send_request method url query data;
  if status_code response =? 400 then
    error ← lift (
      if bool_decide (headers response !! "content-type" = Some "application/json") then
        body ← json_body response;
        has_error ← contains_error body;
        if (has_error : bool) then
          error ← subscript body "error";
          document ← get_method body;
          let description := dict_get document "error_description" in
          if truthy description then
            tail ← str_add (VStr ": ") description;
            str_add error tail
          else Ok error
        else Ok (VStr (text response))
      else Ok (VStr (text response)));
    emit (EvError (MsgValue error));;
    mret (∅, rq)
  else if negb (status_code response =? 200) then
    emit (EvError MsgAuthenticationError);;
    mret (∅, rq)
  else
    body ← lift (json_body response);
    id_token ← lift (subscript body "id_token");
    tokens ← lift (get_method body);
    verified ← try_except
      (header ← lift (jws_get_unverified_header id_token);
       key ← lift (select_key (signing_keys a) (dict_get header "kid"));
       credentials ← lift (decode_id_token a tokens id_token key);
       mret (Some credentials))
      (λ e, match e with JOSEError _ => true | _ => false end)
      (λ e, detail ← lift (invalid_id_token_detail e);
            emit (EvError (MsgInvalidIdToken detail));;
            mret None);
    match verified with
    | None => mret (∅, rq)
    | Some credentials =>
        access_token ← lift (dict_item tokens "access_token");
        let credentials := with_tokens tokens access_token credentials in
        let rq' :=
          if negb (String.eqb action_id "") then trigger_action action_id rq else rq in
        mret (credentials, rq')
    end.

(** What [get_principal] returns, with the session and the request as the
    call leaves them. *)
Record principal_result := {
  principal : pyval;
  credentials_out : pydict;
  new_response : option redirect;
  session_out : option pydict;
  request_out : request;
}.

(** Lines 406-426. *)
Definition get_principal (rq : request) (session : option pydict)
    (session_id state_id : Z) : M principal_result :=
  '(code, _, _, action_id) ← is_auth_response rq;
  '(credentials, rq, response) ←
    (if truthy code then
       '(credentials, rq') ← request_credentials rq code action_id;
       if truthy (VDict credentials) then
         mret (credentials, rq',
               Some {| redirect_s := session_id; redirect_c := format_05d state_id |})
       else mret (credentials, rq', None)
     else mret (∅, rq, None));
  credentials ←
    (if negb (truthy (VDict credentials)) then
       '(principal, credentials) ← retrieve_credentials session;
       if negb (truthy principal) then
         '(_, credentials) ← lift (base_get_principal rq);
         mret credentials
       else mret credentials
     else mret credentials);
  session ←
    (if truthy (VDict credentials) then store_credentials session credentials
     else mret session);
  mret {| principal := dict_get credentials "sub"; credentials_out := credentials;
          new_response := response; session_out := session; request_out := rq |}.

(** Lines 431-448. *)
Definition logout (location delete_session user access_token : pyval) : M pyval :=
  status ← lift (base_logout location delete_session user);
  match access_token with
  | VNone => mret status
  | _ =>
      '(method, url, query, data) ← create_end_session_request access_token;
      if truthy url then
        response ← send_request method url query data;
        mret (if truthy status then VBool (status_code response =? 204) else status)
      else mret status
  end.

(** Lines 450-456. *)
Definition user_info (access_token : pyval) : M pyval :=
  '(method, url, query, data) ← create_userinfo_request access_token;
  if negb (truthy url) then mret (VDict ∅)
  else
    response ← send_request method url query data;
    if status_code response =? 200 then lift (json_body response)
    else mret (VDict ∅).
End methods.

(** ** Concurrent callers of [fetch_keys] *)

(** Where a thread stands in [fetch_keys] (lines 248-273): before the test of
    line 249, waiting for [self.jwks_lock] (line 250), inside the [with]
    block, or returned, with whether it ran the block and the exception that
    ended it, if any. *)
Inductive thread :=
  | AtGuard
  | AtLock
  | InRefresh
  | Returned (refreshed : bool) (failure : option exn).

(** The threads share the instance, the clock and the trace; [locked] is the
    state of [self.jwks_lock]. *)
Record pool := {
  shared : world;
  locked : bool;
  threads : list thread;
}.

Section pool.
Context `{Host}.

(** One step of thread [i]: it evaluates the guard, takes the lock when it
    is free, or runs the block and releases the lock.  A thread that cannot
    move (it waits for the lock, or has returned) leaves the pool as it is. *)
Definition pool_step (i : nat) (p : pool) : pool :=
  match threads p !! i with
  | Some AtGuard =>
      match fetch_keys_stale (shared p) with
      | (Ok true, w) =>
          {| shared := w; locked := locked p; threads := <[i := AtLock]> (threads p) |}
      | (Ok false, w) =>
          {| shared := w; locked := locked p;
             threads := <[i := Returned false None]> (threads p) |}
      | (Raise e, w) =>
          {| shared := w; locked := locked p;
             threads := <[i := Returned false (Some e)]> (threads p) |}
      end
  | Some AtLock =>
      if locked p then p
      else {| shared := shared p; locked := true; threads := <[i := InRefresh]> (threads p) |}
  | Some InRefresh =>
      match fetch_keys_refresh (shared p) with
      | (Ok _, w) =>
          {| shared := w; locked := false;
             threads := <[i := Returned true None]> (threads p) |}
      | (Raise e, w) =>
          {| shared := w; locked := false;
             threads := <[i := Returned true (Some e)]> (threads p) |}
      end
  | _ => p
  end.

(** The pool after the steps of a schedule, the first thread named first. *)
Definition pool_run (schedule : list nat) (p : pool) : pool :=
  foldl (λ q i, pool_step i q) p schedule.

(** [n] callers entering [fetch_keys] on the same instance. *)
Definition pool_start (n : nat) (w : world) : pool :=
  {| shared := w; locked := false; threads := replicate n AtGuard |}.
End pool.

Definition is_request (e : event) : bool :=
  match e with EvRequest _ => true | _ => false end.

(** The number of HTTP requests of a trace. *)
Definition fetches (t : list event) : nat := List.length (List.filter is_request t).

Definition has_refreshed (t : thread) : bool :=
  match t with Returned true _ => true | _ => false end.

Definition in_refresh (t : thread) : bool :=
  match t with InRefresh => true | _ => false end.

Definition count (p : thread → bool) (l : list thread) : nat := List.length (List.filter p l).

(** ** A small identity provider, to run the methods on *)

Module Demo.
Definition hex_digit (n : N) : Byte.byte :=
  default Byte.x30 (Byte.of_N (if (n <? 10)%N then 48 + n else 87 + n)%N).

Definition hex_value (b : Byte.byte) : option N :=
  let n := Byte.to_N b in
  if ((48 <=? n) && (n <=? 57))%N then Some (n - 48)%N
  else if ((97 <=? n) && (n <=? 102))%N then Some (n - 87)%N
  else None.

(** A stand-in for the cipher: the token is the plaintext in hexadecimal;
    anything else is rejected as an invalid token. *)
Definition hex (b : bytes) : bytes :=
  flat_map (λ x, [hex_digit (Byte.to_N x / 16); hex_digit (Byte.to_N x mod 16)]) b.

Fixpoint unhex (t : bytes) : result bytes :=
  match t with
  | [] => Ok []
  | h :: l :: t' =>
      match hex_value h, hex_value l, unhex t' with
      | Some a, Some b, Ok rest =>
          match Byte.of_N (16 * a + b) with
          | Some x => Ok (x :: rest)
          | None => Raise InvalidToken
          end
      | _, _, _ => Raise InvalidToken
      end
  | _ => Raise InvalidToken
  end.

Definition jwks_document : pyval :=
  VDict {[ "keys" := VList [VDict (<["kid" := VStr "k2"]> {[ "kty" := VStr "RSA" ]})] ]}.

Definition discovery_fields : pydict :=
  <["issuer" := VStr "https://idp.example"]> (
  <["authorization_endpoint" := VStr "https://idp.example/authorize"]> (
  {[ "token_endpoint" := VStr "https://idp.example/token" ]})).

Definition discovery : http_response :=
  {| status_code := 200; headers := ∅; text := ""; json_body := Ok (VDict discovery_fields) |}.

Definition keys_cached : http_response :=
  {| status_code := 200; headers := {[ "cache-control" := "public, max-age=60" ]};
     text := ""; json_body := Ok jwks_document |}.

Definition keys_uncached : http_response :=
  {| status_code := 200; headers := {[ "cache-control" := "no-cache, must-revalidate" ]};
     text := ""; json_body := Ok jwks_document |}.

Definition keys_plain : http_response :=
  {| status_code := 200; headers := ∅; text := ""; json_body := Ok jwks_document |}.

Definition tokens : pydict :=
  <["id_token" := VStr "header.payload.signature"]> {[ "access_token" := VStr "t" ]}.

Definition id_token_claims : pydict :=
  <["iss" := VStr "https://idp.example"]> (
  <["aud" := VStr "app"]> (
  <["exp" := VInt 2000]> (
  {[ "sub" := VStr "u1" ]}))).

Definition refusal : http_response :=
  {| status_code := 400;
     headers := {[ "content-type" := "application/json" ]};
     text := "invalid_grant";
     json_body := Ok (VDict {[ "error" := VStr "invalid_grant" ]}) |}.

Definition granted : http_response :=
  {| status_code := 200;
     headers := {[ "content-type" := "application/json" ]};
     text := "";
     json_body := Ok (VDict tokens) |}.

(** The provider: a JWKS document served with a [max-age], without one and
    without [Cache-Control] header, a discovery document, and a token endpoint
    that refuses the code ["expired"]. *)
Definition respond (rq : http_request) : result http_response :=
  match rq_url rq with
  | VStr "https://idp.example/jwks" =>
      Ok keys_cached
  | VStr "https://idp.example/jwks-uncached" =>
      Ok keys_uncached
  | VStr "https://idp.example/jwks-plain" =>
      Ok keys_plain
  | VStr "https://idp.example/.well-known/openid-configuration" =>
      Ok discovery
  | VStr "https://idp.example/token" =>
      match rq_data rq with
      | VDict d =>
          match d !! "code" with
          | Some (VStr "expired") => Ok refusal
          | _ => Ok granted
          end
      | _ => Raise TransportError
      end
  | _ => Raise TransportError
  end.

#[export] Instance host : Host := {|
  requests_request := respond;
  time_time := λ n, 1000 + Z.of_nat n;
  encrypt := hex;
  decrypt := unhex;
  jws_get_unverified_header := λ _, Ok {[ "alg" := VStr "RS256" ]};
  jwt_decode := λ _ _ _ _ _ _ _, Ok id_token_claims;
  base_get_principal := λ _, Ok (VNone, ∅);
  base_logout := λ _ _ _, Ok (VBool true);
|}.

Definition instance (jwks : pyval) (expiration : option Z) : authentication := {|
  ident := "oidc";
  client_id := VStr "app";
  client_secret := VStr "secret";
  secure := true;
  algorithms := VList [VStr "RS256"];
  issuer := VStr "https://idp.example";
  jwks_uri := jwks;
  jwks_expiration := expiration;
  signing_keys := {[ KStr "k1" := VDict {[ "kty" := VStr "RSA" ]} ]};
  time_skew := VInt 0;
  endpoints :=
    <["authorization_endpoint" := VStr "https://idp.example/authorize"]> (
    <["token_endpoint" := VStr "https://idp.example/token"]> (
    <["discovery_endpoint" := VStr "https://idp.example/.well-known/openid-configuration"]> (
    <["userinfo_endpoint" := VStr "https://idp.example/userinfo"]> (
    {[ "end_session_endpoint" := VStr "" ]}))));
  cookie := false;
|}.

Definition start (a : authentication) : world :=
  {| self := a; trace := []; clock := 0 |}.

(** An instance without JWKS URL, before any effect. *)
Definition idle : world := start (instance VNone None).

Definition callback (code state : string) : request := {|
  params := <["code" := code]> {[ "state" := state ]};
  redirect_url := VStr "https://app.example/";
  query_string := "";
|}.
End Demo.

(** ** Cookies: [to_cookie] and [from_cookie] *)

(** What the cookie methods read and call: [self.encrypted], [jwt.encode] and
    [jwt.decode] with the instance's own key and HS256, and the methods of
    the base class. *)
Class CookieHost := {
  encrypted : bool;
  jwt_encode : pydict → result string;
  jwt_decode_cookie : string → result pydict;
  base_to_cookie : pyval → pydict → result bytes;
  base_from_cookie : bytes → pyval → result (pyval * pydict);
}.

(** A cookie: the token of [jwt.encode], or what the base class sealed. *)
Inductive cookie_value :=
  | CookieToken (token : string)
  | CookieSealed (sealed : bytes).

Section cookies.
Context `{CookieHost}.

(** Lines 320-328. *)
Definition to_cookie (credentials : pydict) : result cookie_value :=
  let credentials := filter_credentials credentials {[ "sub" ]} in
  if encrypted then
    principal ← dict_item credentials "sub";
    sealed ← base_to_cookie principal (delete "sub" credentials);
    Ok (CookieSealed sealed)
  else
    token ← jwt_encode credentials;
    Ok (CookieToken token).

(** Lines 330-338. *)
Definition from_cookie (cookie : bytes) (max_age : pyval) : result (pyval * pydict) :=
  credentials ←
    (if encrypted then
       '(principal, credentials) ← base_from_cookie cookie max_age;
       Ok (<["sub" := principal]> credentials)
     else
       token ← decode_ascii cookie;
       credentials ← jwt_decode_cookie token;
       Ok (filter_credentials credentials {[ "sub" ]}));
  principal ← dict_item credentials "sub";
  Ok (principal, credentials).
End cookies.

(** ** More hosts to run the methods on *)

Module Scenes.
(** A provider that answers every request with [r], with a [jose] library
    that answers [header] and [decoded]. *)
Definition host (r : result http_response) (header decoded : result pydict) : Host := {|
  requests_request := λ _, r;
  time_time := λ n, 1000 + Z.of_nat n;
  encrypt := Demo.hex;
  decrypt := Demo.unhex;
  jws_get_unverified_header := λ _, header;
  jwt_decode := λ _ _ _ _ _ _ _, decoded;
  base_get_principal := λ _, Ok (VNone, ∅);
  base_logout := λ _ _ _, Ok (VBool true);
|}.

(** A request that is no callback of the provider. *)
Definition visit (query : string) : request := {|
  params := ∅;
  redirect_url := VStr "https://app.example/";
  query_string := query;
|}.

Definition answer (status : Z) (body : pyval) : http_response :=
  {| status_code := status; headers := ∅; text := ""; json_body := Ok body |}.

(** Cookies signed by writing the subject out, and read back from it. *)
Definition plain_cookies : CookieHost := {|
  encrypted := false;
  jwt_encode := λ claims, match claims !! "sub" with
                          | Some (VStr s) => Ok ("sub=" +:+ s)
                          | _ => Ok ""
                          end;
  jwt_decode_cookie := λ token,
    match token with
    | String "s" (String "u" (String "b" (String "=" s))) => Ok {[ "sub" := VStr s ]}
    | _ => Ok ∅
    end;
  base_to_cookie := λ _ _, Ok [];
  base_from_cookie := λ _ _, Ok (VNone, ∅);
|}.




(** The tokens of a code exchange that come with a refresh token. *)
Definition renewable : pydict := <["refresh_token" := VStr "r"]> Demo.tokens.

(** An instance whose provider has an end-session endpoint. *)
Definition signed_in : world :=
  Demo.start (set_endpoints
                (<["end_session_endpoint" := VStr "https://idp.example/logout"]>
                   (endpoints (Demo.instance VNone None)))
                (Demo.instance VNone None)).

(** An instance without discovery endpoint, with the JWKS URL [jwks] and the
    token endpoint [token_endpoint]. *)
Definition standalone (jwks token_endpoint : pyval) : world :=
  Demo.start (set_endpoints
                (<["discovery_endpoint" := VNone]> (
                 <["token_endpoint" := token_endpoint]> (
                 endpoints (Demo.instance jwks None))))
                (Demo.instance jwks None)).

Definition sealed_cookies : CookieHost := {|
  encrypted := true;
  jwt_encode := λ _, Ok "";
  jwt_decode_cookie := λ _, Ok ∅;
  base_to_cookie := λ principal _,
    match principal with
    | VStr s => Ok (list_byte_of_string s)
    | _ => Raise TypeError
    end;
  base_from_cookie := λ sealed _, Ok (VStr (string_of_list_byte sealed), ∅);
|}.
End Scenes.

(** ** Vocabulary of the statements *)

(** The request [request_credentials] sends to the token endpoint [url]. *)
Definition token_request (a : authentication) (url redirect code : pyval) : http_request :=
  {| rq_method := VStr "POST";
     rq_url := url;
     rq_params := VDict ∅;
     rq_data := VDict (<["grant_type" := VStr "authorization_code"]> (
                       <["code" := code]> (
                       <["redirect_uri" := redirect]> (
                       <["client_id" := client_id a]> (
                       <["client_secret" := client_secret a]> ∅))))) |}.

(** The request [fetch_keys] sends for the key set. *)
Definition jwks_request (a : authentication) : http_request :=
  {| rq_method := VStr "GET"; rq_url := jwks_uri a;
     rq_params := VDict ∅; rq_data := VDict ∅ |}.

(** The key set of a JWKS response, as lines 254-260 build it. *)
Definition jwks_key_set (r : http_response) : result key_table :=
  body ← json_body r;
  document ← get_method body;
  keys ← py_iter (default (VList []) (document !! "keys"));
  _ ← mapM key_kid keys;
  entries ← mapM key_entry keys;
  Ok (dict_of_items entries).

(** The fields a discovery document may set and a key refresh leaves alone. *)
Definition same_config (a b : authentication) : Prop :=
  endpoints a = endpoints b ∧ jwks_uri a = jwks_uri b ∧ issuer a = issuer b.

(** The request [handle_start] sends for the discovery document. *)
Definition discovery_request (url : pyval) : http_request :=
  {| rq_method := VStr "GET"; rq_url := url; rq_params := VDict ∅; rq_data := VDict ∅ |}.

Section vocabulary.
Context `{Host}.

(** The key set the JWKS endpoint offers to the instance [a]: the request
    goes through, the status is not an error, and the keys are read. *)
Definition fetched_key_set (a : authentication) : result key_table :=
  r ← requests_request (jwks_request a);
  raise_for_status r;;
  jwks_key_set r.
End vocabulary.

(** The value of a decimal numeral read from the left, after [acc]. *)
Fixpoint uint_acc (d : Decimal.uint) (acc : N) : N :=
  match d with
  | Decimal.Nil => acc
  | Decimal.D0 d => uint_acc d (acc * 10)
  | Decimal.D1 d => uint_acc d (acc * 10 + 1)
  | Decimal.D2 d => uint_acc d (acc * 10 + 2)
  | Decimal.D3 d => uint_acc d (acc * 10 + 3)
  | Decimal.D4 d => uint_acc d (acc * 10 + 4)
  | Decimal.D5 d => uint_acc d (acc * 10 + 5)
  | Decimal.D6 d => uint_acc d (acc * 10 + 6)
  | Decimal.D7 d => uint_acc d (acc * 10 + 7)
  | Decimal.D8 d => uint_acc d (acc * 10 + 8)
  | Decimal.D9 d => uint_acc d (acc * 10 + 9)
  end%N.

(** A character of a decimal numeral. *)
Definition is_decimal (c : ascii) : bool :=
  match digit_value c with Some _ => true | None => false end.

(** The packed state of [create_auth_request] (line 203), as text. *)
Definition packed_state (session_id state_id : Z) (action_id : string) : string :=
  format_d session_id +:+ "#" +:+ format_d state_id +:+ "#" +:+ action_id.

(** The lock is held exactly while one thread is inside the block, and every
    request of the trace beyond the first [base] is that of a thread that ran
    the block. *)
Definition pool_invariant (n base : nat) (p : pool) : Prop :=
  List.length (threads p) = n
  ∧ count in_refresh (threads p) = (if locked p then 1 else 0)%nat
  ∧ fetches (trace (shared p)) = (base + count has_refreshed (threads p))%nat.

Section more_vocabulary.
Context `{Host}.

(** The test of line 249, on the next reading of the clock. *)
Definition stale_now (w : world) : bool :=
  truthy (jwks_uri (self w))
  && match jwks_expiration (self w) with
     | Some expiration => negb (expiration =? 0) && (expiration <? time_time (clock w))
     | None => false
     end.

(** The key identifiers the JWKS endpoint offers to the instance [a]. *)
Definition fetched_key_ids (a : authentication) : result (gset hkey) :=
  r ← requests_request (jwks_request a);
  raise_for_status r;;
  body ← json_body r;
  document ← get_method body;
  keys ← py_iter (default (VList []) (document !! "keys"));
  kids ← mapM key_kid keys;
  Ok (list_to_set kids).
End more_vocabulary.

(** The number of occurrences of a character. *)
Fixpoint count_char (c : ascii) (s : string) : nat :=
  match s with
  | EmptyString => 0
  | String x s' => (if Ascii.eqb x c then 1 else 0) + count_char c s'
  end.

(** The request [user_info] sends. *)
Definition userinfo_request (url access_token : pyval) : http_request :=
  {| rq_method := VStr "POST"; rq_url := url; rq_params := VDict ∅;
     rq_data := VDict (<["access_token" := access_token]> ∅) |}.

(** The request [logout] sends. *)
Definition end_session_request (a : authentication) (url token : pyval) : http_request :=
  {| rq_method := VStr "POST"; rq_url := url; rq_params := VDict ∅;
     rq_data := VDict (<["client_id" := client_id a]> (
                       <["client_secret" := client_secret a]> (
                       <["refresh_token" := token]> ∅))) |}.

(** * Properties *)

(** ** Sanity checks of the string functions *)

Example split_3 : split "#" "7#3#" = ["7"; "3"; ""].
Proof. reflexivity. Qed.

Example rsplit1_state : rsplit1 "#" "#oidc#gAAA=" = ["#oidc"; "gAAA="].
Proof. reflexivity. Qed.

Example rsplit1_none : rsplit1 "#" "abc" = ["abc"].
Proof. reflexivity. Qed.

Example strip_samples : strip "  max-age " = "max-age" ∧ strip "   " = "" ∧ strip "a b" = "a b".
Proof. vm_compute. auto. Qed.

Example int_of_str_samples :
  int_of_str " -12_0 " = Ok (-120) ∧ int_of_str "1__0" = Raise ValueError
  ∧ int_of_str "" = Raise ValueError ∧ int_of_str "007" = Ok 7
  ∧ int_of_str "+-5" = Raise ValueError.
Proof. vm_compute. auto 10. Qed.

Example format_samples :
  format_d 0 = "0" ∧ format_d (-42) = "-42" ∧ format_05d 3 = "00003"
  ∧ format_05d (-3) = "-0003" ∧ format_05d 123456 = "123456" ∧ format_05d 0 = "00000".
Proof. vm_compute. auto 10. Qed.

Example cache_controls_sample :
  cache_controls "public, max-age=60" = Ok {[ "max-age" := "60" ]}
  ∧ cache_controls "a=b=c" = Raise ValueError
  ∧ cache_controls "no-store" = Ok ∅.
Proof. vm_compute. auto. Qed.

Example hex_sample :
  Demo.unhex (Demo.hex (list_byte_of_string "7#3#")) = Ok (list_byte_of_string "7#3#").
Proof. vm_compute. reflexivity. Qed.

(** ** Running the monad *)

Lemma run_bind {A B} (m : M A) (k : A → M B) (w : world) :
  (m ≫= k) w = match m w with
               | (Ok a, w') => k a w'
               | (Raise e, w') => (Raise e, w')
               end.
Proof. reflexivity. Qed.

Lemma run_ret {A} (a : A) (w : world) : (mret a : M A) w = (Ok a, w).
Proof. reflexivity. Qed.

Lemma run_lift {A} (r : result A) (w : world) : lift r w = (r, w).
Proof. reflexivity. Qed.

Lemma run_get_self (w : world) : get_self w = (Ok (self w), w).
Proof. reflexivity. Qed.

Ltac run :=
  repeat (progress (rewrite ?run_bind, ?run_ret, ?run_lift, ?run_get_self; cbn beta iota)).

(** ** The callback test: [is_auth_response] *)

Section callback.
Context `{Host}.

(** C10.  When the request has no [code] parameter, or its [state] does
    not start with ['#'], [is_auth_response] answers the raw code ([None]
    when absent) with the defaults [0], [0], [''], and leaves the trace as
    it was: nothing is decrypted. *)
Theorem is_auth_response_defaults (rq : request) (w : world) :
  params rq !! "code" = None
  ∨ String.prefix "#" (default "" (params rq !! "state")) = false →
  is_auth_response rq w
  = (Ok (from_option VStr VNone (params rq !! "code"), 0, 0, ""), w).
Proof.
  intros [Hcode | Hstate]; unfold is_auth_response.
  - rewrite Hcode. reflexivity.
  - rewrite Hstate, andb_false_r. reflexivity.
Qed.
End callback.

Lemma is_auth_response_defaults_witness :
  is_auth_response (H := Demo.host) (Demo.callback "abc" "oidc")
    (Demo.start (Demo.instance VNone None))
  = (Ok (VStr "abc", 0, 0, ""), Demo.start (Demo.instance VNone None)).
Proof.
  apply (is_auth_response_defaults (Demo.callback "abc" "oidc")).
  right. reflexivity.
Defined.

Section callback_failures.
Context `{Host}.

(** A token the cipher rejects: the code is dropped and the defaults are
    answered, as for a request without code. *)
Lemma is_auth_response_invalid_token (rq : request) (w : world)
    (code state part : string) (token : bytes) :
  params rq !! "code" = Some code → code ≠ "" →
  params rq !! "state" = Some state → String.prefix "#" state = true →
  rsplit1 "#" state !! 1%nat = Some part →
  encode_ascii part = Ok token →
  decrypt token = Raise InvalidToken →
  is_auth_response rq w = (Ok (VNone, 0, 0, ""), log_event (EvDecrypt token) w).
Proof.
  intros Hcode Hne Hstate Hprefix Hpart Henc Hdec. unfold is_auth_response.
  rewrite Hcode, Hstate. cbn [default from_option truthy id].
  assert (String.eqb code "" = false) as -> by (by apply String.eqb_neq).
  cbn [negb andb]. rewrite Hprefix, Hpart.
  run. unfold try_except. run. rewrite Henc. cbn.
  rewrite Hdec. reflexivity.
Qed.

(** C7.  A [state] whose last part is not ASCII text is not turned into
    "no code": [encode('ascii')] raises [UnicodeEncodeError] inside the
    [try] block, the [except] clause only catches [InvalidToken], and the
    exception leaves [is_auth_response], before anything is decrypted. *)
Theorem is_auth_response_non_ascii_state (rq : request) (w : world)
    (code state part : string) :
  params rq !! "code" = Some code → code ≠ "" →
  params rq !! "state" = Some state → String.prefix "#" state = true →
  rsplit1 "#" state !! 1%nat = Some part →
  str_forall is_ascii_char part = false →
  is_auth_response rq w = (Raise UnicodeEncodeError, w).
Proof.
  intros Hcode Hne Hstate Hprefix Hpart Hascii. unfold is_auth_response.
  rewrite Hcode, Hstate. cbn [default from_option truthy id].
  assert (String.eqb code "" = false) as -> by (by apply String.eqb_neq).
  cbn [negb andb]. rewrite Hprefix, Hpart.
  run. unfold try_except. run. unfold encode_ascii. rewrite Hascii. reflexivity.
Qed.
End callback_failures.

Lemma is_auth_response_non_ascii_state_witness :
  is_auth_response (H := Demo.host)
    (Demo.callback "abc" ("#oidc#caf" +:+ String "233"%char ""))
    (Demo.start (Demo.instance VNone None))
  = (Raise UnicodeEncodeError, Demo.start (Demo.instance VNone None)).
Proof.
  apply (is_auth_response_non_ascii_state (H := Demo.host) _ _ "abc"
           ("#oidc#caf" +:+ String "233"%char "") ("caf" +:+ String "233"%char ""));
    first [reflexivity | discriminate].
Defined.

(** ** The signing keys: [fetch_keys] *)

Section keys.
Context `{Host}.

(** C2 (amended).  With no expiration stored, [fetch_keys] does nothing:
    no request is sent and the instance is unchanged, whatever the clock
    says and whether or not a JWKS URL is configured. *)
Theorem fetch_keys_null_expiration (w : world) :
  jwks_expiration (self w) = None →
  fetch_keys w = (Ok tt, w).
Proof.
  intros Hnone. unfold fetch_keys, fetch_keys_stale. run.
  rewrite Hnone. destruct (truthy (jwks_uri (self w))); reflexivity.
Qed.
End keys.

(** A refresh answered without numeric [max-age] leaves a null expiration,
    and the keys are not fetched again. *)
Example fetch_keys_after_uncached_refresh :
  let w := Demo.start (Demo.instance (VStr "https://idp.example/jwks-uncached") (Some 500)) in
  let w1 := (fetch_keys (H := Demo.host) w).2 in
  fetches (trace w1) = 1%nat
  ∧ jwks_expiration (self w1) = None
  ∧ fetch_keys (H := Demo.host) w1 = (Ok tt, w1).
Proof. vm_compute. done. Qed.

Lemma fetch_keys_null_expiration_witness :
  fetch_keys (H := Demo.host)
    (Demo.start (Demo.instance (VStr "https://idp.example/jwks") None))
  = (Ok tt, Demo.start (Demo.instance (VStr "https://idp.example/jwks") None)).
Proof. apply (fetch_keys_null_expiration (H := Demo.host)). reflexivity. Defined.

(** C2, as stated, fails: a JWKS URL is configured, the expiration is null,
    and [fetch_keys] sends no request. *)
Lemma fetch_keys_null_expiration_counterexample :
  let w := Demo.start (Demo.instance (VStr "https://idp.example/jwks") None) in
  ¬ (truthy (jwks_uri (self w)) = true → jwks_expiration (self w) = None →
     (fetches (trace w) < fetches (trace (fetch_keys (H := Demo.host) w).2))%nat).
Proof.
  intros w Hclaim. specialize (Hclaim eq_refl eq_refl).
  vm_compute in Hclaim. lia.
Qed.

(** ** Credentials kept in the session *)

Lemma truthy_insert (k : string) (v : pyval) (d : pydict) :
  truthy (VDict (<[k := v]> d)) = true.
Proof.
  cbn. apply negb_true_iff, bool_decide_eq_false.
  rewrite map_size_empty_iff. apply insert_non_empty.
Qed.

Lemma filter_credentials_lookup (credentials : pydict) (to_keep : gset string) (k : string) :
  filter_credentials credentials to_keep !! k
  = if decide (k ∈ to_keep) then credentials !! k else None.
Proof.
  unfold filter_credentials. destruct (decide (k ∈ to_keep)) as [Hin | Hout].
  - destruct (credentials !! k) as [v |] eqn:Hk.
    + by apply map_lookup_filter_Some.
    + apply map_lookup_filter_None. by left.
  - apply map_lookup_filter_None. right. intros v _. exact Hout.
Qed.

Lemma filter_credentials_sub (credentials : pydict) :
  dict_get (filter_credentials credentials {[ "sub" ]}) "sub" = dict_get credentials "sub".
Proof.
  unfold dict_get. rewrite filter_credentials_lookup.
  destruct (decide ("sub" ∈ ({[ "sub" ]} : gset string))) as [_ | Hout]; [done | set_solver].
Qed.

Lemma store_credentials_run (w : world) (d credentials : pydict) :
  cookie (self w) = false →
  session_truthy (Some d) = true →
  store_credentials (Some d) credentials w
  = (Ok (Some (<["nagare.credentials" := VDict (filter_credentials credentials {[ "sub" ]})]> d)), w).
Proof. intros Hcookie Hsession. unfold store_credentials. run. by rewrite Hcookie, Hsession. Qed.

Lemma retrieve_credentials_run (w : world) (d kept : pydict) :
  cookie (self w) = false →
  retrieve_credentials (Some (<["nagare.credentials" := VDict kept]> d)) w
  = (Ok (dict_get kept "sub", kept), w).
Proof.
  intros Hcookie. unfold retrieve_credentials. run. rewrite Hcookie.
  unfold session_truthy. rewrite truthy_insert. cbn [orb negb].
  rewrite lookup_insert_eq. cbn [default from_option id get_method]. run. reflexivity.
Qed.

Lemma store_credentials_returns (session : option pydict) (credentials : pydict) (w : world) :
  ∃ session', store_credentials session credentials w = (Ok session', w).
Proof.
  unfold store_credentials. run.
  destruct session as [d |]; [| by eexists].
  destruct (negb (cookie (self w)) && session_truthy (Some d)); by eexists.
Qed.

(** Whatever else the credentials hold is not in what the session keeps. *)
Lemma store_credentials_drops (w : world) (d credentials : pydict) (k : string) (v : pyval) :
  cookie (self w) = false →
  session_truthy (Some d) = true →
  d !! "credentials" = None →
  credentials !! k = Some v → k ≠ "sub" →
  ∃ d', store_credentials (Some d) credentials w = (Ok (Some d'), w)
    ∧ d' !! "credentials" = None
    ∧ d' !! "nagare.credentials" ≠ Some (VDict credentials)
    ∧ ∀ sub, retrieve_credentials (Some d') w ≠ (Ok (sub, credentials), w).
Proof.
  intros Hcookie Hsession Hfree Hk Hne.
  assert (Hdiff : filter_credentials credentials {[ "sub" ]} ≠ credentials).
  { intros Heq. apply (f_equal (λ m : pydict, m !! k)) in Heq.
    rewrite filter_credentials_lookup, Hk in Heq.
    destruct (decide (k ∈ ({[ "sub" ]} : gset string))) as [Hin | _];
      [by apply elem_of_singleton in Hin | discriminate]. }
  eexists. split; [by apply store_credentials_run |].
  split; [by rewrite lookup_insert_ne |]. split.
  - rewrite lookup_insert_eq. intros [= Heq]. by apply Hdiff.
  - intros sub Heq. rewrite retrieve_credentials_run in Heq by done.
    injection Heq as _ Heq. by apply Hdiff.
Qed.

(** C5 (amended).  With the cookie disabled and a session that is true,
    [store_credentials] writes under the key ["nagare.credentials"] the
    credentials reduced to their [sub] entry, the other entries of the
    session staying as they are; [retrieve_credentials] then answers the
    subject and that reduced set. *)
Theorem store_then_retrieve_credentials (w : world) (d credentials : pydict) :
  cookie (self w) = false →
  session_truthy (Some d) = true →
  let kept := filter_credentials credentials {[ "sub" ]} in
  let d' := <["nagare.credentials" := VDict kept]> d in
  store_credentials (Some d) credentials w = (Ok (Some d'), w)
  ∧ retrieve_credentials (Some d') w = (Ok (dict_get credentials "sub", kept), w).
Proof.
  intros Hcookie Hsession kept d'. split.
  - by apply store_credentials_run.
  - unfold d'. rewrite retrieve_credentials_run by done.
    unfold kept. by rewrite filter_credentials_sub.
Qed.

Lemma store_then_retrieve_credentials_witness :
  let w := Demo.start (Demo.instance VNone None) in
  let d : pydict := {[ "visits" := VInt 1 ]} in
  let credentials : pydict := <["sub" := VStr "u1"]> {[ "access_token" := VStr "t" ]} in
  let kept := filter_credentials credentials {[ "sub" ]} in
  let d' := <["nagare.credentials" := VDict kept]> d in
  store_credentials (Some d) credentials w = (Ok (Some d'), w)
  ∧ retrieve_credentials (Some d') w = (Ok (dict_get credentials "sub", kept), w).
Proof.
  intros w d credentials.
  apply (store_then_retrieve_credentials w d credentials); vm_compute; reflexivity.
Defined.

(** C5, as stated, fails: nothing is written under ["credentials"], what is
    written under ["nagare.credentials"] is not the full credential set, and
    the full set is not what is retrieved. *)
Lemma store_credentials_counterexample :
  let w := Demo.start (Demo.instance VNone None) in
  let d : pydict := {[ "visits" := VInt 1 ]} in
  let credentials : pydict := <["sub" := VStr "u1"]> {[ "access_token" := VStr "t" ]} in
  cookie (self w) = false ∧ session_truthy (Some d) = true
  ∧ ∃ d', store_credentials (Some d) credentials w = (Ok (Some d'), w)
      ∧ d' !! "credentials" = None
      ∧ d' !! "nagare.credentials" ≠ Some (VDict credentials)
      ∧ ∀ sub, retrieve_credentials (Some d') w ≠ (Ok (sub, credentials), w).
Proof.
  cbv zeta. split; [reflexivity |]. split; [vm_compute; reflexivity |].
  apply (store_credentials_drops _ _ _ "access_token" (VStr "t"));
    first [discriminate | vm_compute; reflexivity].
Qed.

(** ** The transport: [send_request] *)

Lemma py_or_empty : py_or (VDict ∅) (VDict ∅) = VDict ∅.
Proof. reflexivity. Qed.

Lemma py_or_insert (k : string) (v : pyval) (d : pydict) (x : pyval) :
  py_or (VDict (<[k := v]> d)) x = VDict (<[k := v]> d).
Proof. unfold py_or. by rewrite truthy_insert. Qed.

Section transport.
Context `{Host}.

Lemma send_request_run (method url query data : pyval) (w : world) :
  let rq := {| rq_method := method; rq_url := url;
               rq_params := py_or query (VDict ∅); rq_data := py_or data (VDict ∅) |} in
  send_request method url query data w
  = match requests_request rq with
    | Ok r => (match raise_for_status r with Ok _ => Ok r | Raise e => Raise e end,
               log_event (EvRequest rq) w)
    | Raise e => (Raise e, log_event (EvRequest rq) w)
    end.
Proof.
  intros rq. unfold send_request. fold rq. run. unfold emit. run.
  destruct (requests_request rq) as [r | e]; [| reflexivity].
  run. destruct (raise_for_status r) as [[] | e]; reflexivity.
Qed.

Lemma raise_for_status_error (r : http_response) :
  400 ≤ status_code r < 600 → raise_for_status r = Raise (HTTPError (status_code r)).
Proof.
  intros [Hlo Hhi]. unfold raise_for_status.
  apply Z.leb_le in Hlo. apply Z.ltb_lt in Hhi. by rewrite Hlo, Hhi.
Qed.

Lemma raise_for_status_other (r : http_response) :
  ¬ (400 ≤ status_code r < 600) → raise_for_status r = Ok tt.
Proof.
  intros Hout. unfold raise_for_status.
  destruct (400 <=? status_code r) eqn:Hlo; [| done].
  destruct (status_code r <? 600) eqn:Hhi; [| done].
  apply Z.leb_le in Hlo. apply Z.ltb_lt in Hhi. lia.
Qed.

(** Every exchange goes through [send_request]: a status from 400 to 599
    raises, any other status is handed back to the caller. *)
Lemma send_request_status (method url query data : pyval) (w : world) (r : http_response) :
  let rq := {| rq_method := method; rq_url := url;
               rq_params := py_or query (VDict ∅); rq_data := py_or data (VDict ∅) |} in
  requests_request rq = Ok r →
  send_request method url query data w
  = (if (400 <=? status_code r) && (status_code r <? 600)
     then Raise (HTTPError (status_code r)) else Ok r,
     log_event (EvRequest rq) w).
Proof.
  intros rq Hr. rewrite send_request_run. fold rq. rewrite Hr. unfold raise_for_status.
  by destruct ((400 <=? status_code r) && (status_code r <? 600)).
Qed.

Lemma refresh_token_error_status (token : pyval) (w : world) (url : pyval)
    (r : http_response) :
  endpoints (self w) !! "token_endpoint" = Some url →
  (∀ rq, rq_url rq = url → requests_request rq = Ok r) →
  400 ≤ status_code r < 600 →
  (refresh_token token w).1 = Raise (HTTPError (status_code r)).
Proof.
  intros Hurl Hresponse Hstatus. unfold refresh_token, create_refresh_token_request. run.
  unfold dict_item. rewrite Hurl. run. rewrite send_request_run.
  rewrite Hresponse by reflexivity. by rewrite raise_for_status_error.
Qed.

Lemma request_credentials_error_status (rq : request) (code : pyval) (action_id : string)
    (w : world) (url : pyval) (r : http_response) :
  endpoints (self w) !! "token_endpoint" = Some url →
  requests_request (token_request (self w) url (redirect_url rq) code) = Ok r →
  400 ≤ status_code r < 600 →
  request_credentials rq code action_id w
  = (Raise (HTTPError (status_code r)),
     log_event (EvRequest (token_request (self w) url (redirect_url rq) code)) w).
Proof.
  intros Hurl Hresponse Hstatus.
  unfold request_credentials, create_token_request. run.
  unfold dict_item. rewrite Hurl. run.
  rewrite send_request_run. rewrite py_or_empty, py_or_insert.
  unfold token_request in Hresponse. rewrite Hresponse.
  by rewrite raise_for_status_error.
Qed.

(** C1.  The token endpoint answers the code exchange with a status from
    400 to 599, 400 included: [raise_for_status] raises [HTTPError] inside
    [send_request], so [request_credentials] never reaches its test of the
    status 400; nothing is logged, no credentials are returned, and the
    exception leaves [get_principal]. *)
Theorem code_exchange_error_status_raises (rq : request) (code : pyval)
    (action_id : string) (w : world) (url : pyval) (r : http_response) :
  endpoints (self w) !! "token_endpoint" = Some url →
  requests_request (token_request (self w) url (redirect_url rq) code) = Ok r →
  400 ≤ status_code r < 600 →
  let w' := log_event (EvRequest (token_request (self w) url (redirect_url rq) code)) w in
  request_credentials rq code action_id w = (Raise (HTTPError (status_code r)), w')
  ∧ ∀ (w0 : world) (s t : Z) (session : option pydict) (session_id state_id : Z),
      is_auth_response rq w0 = (Ok (code, s, t, action_id), w) →
      truthy code = true →
      get_principal rq session session_id state_id w0
      = (Raise (HTTPError (status_code r)), w').
Proof.
  intros Hurl Hresponse Hstatus w'.
  pose proof (request_credentials_error_status rq code action_id w url r
                Hurl Hresponse Hstatus) as Hraise.
  split; [exact Hraise |].
  intros w0 s t session session_id state_id Hauth Hcode.
  unfold get_principal. run. rewrite Hauth. run. rewrite Hcode. run.
  by rewrite Hraise.
Qed.
End transport.

Lemma code_exchange_error_status_raises_witness :
  request_credentials (H := Demo.host) (Demo.callback "expired" "") (VStr "expired") ""
    Demo.idle
  = (Raise (HTTPError 400),
     log_event (EvRequest (token_request (self Demo.idle) (VStr "https://idp.example/token")
                             (VStr "https://app.example/") (VStr "expired"))) Demo.idle).
Proof.
  apply (code_exchange_error_status_raises (H := Demo.host) (Demo.callback "expired" "")
           (VStr "expired") "" Demo.idle (VStr "https://idp.example/token") Demo.refusal).
  - vm_compute. reflexivity.
  - vm_compute. reflexivity.
  - simpl. lia.
Defined.

(** ** The credentials of a verified ID token *)

Lemma with_tokens_lookup (tokens : pydict) (access_token : pyval) (claims : pydict) :
  with_tokens tokens access_token claims !! "access_token" = Some access_token
  ∧ ∀ k, k ≠ "access_token" → k ≠ "refresh_token" →
         with_tokens tokens access_token claims !! k = claims !! k.
Proof.
  unfold with_tokens. split.
  - destruct (dict_get tokens "refresh_token");
      rewrite ?(lookup_insert_ne _ "refresh_token") by discriminate;
      apply lookup_insert_eq.
  - intros k Ha Hr.
    destruct (dict_get tokens "refresh_token");
      rewrite ?(lookup_insert_ne _ "refresh_token") by done;
      by rewrite lookup_insert_ne.
Qed.

Lemma with_tokens_refresh (tokens : pydict) (access_token : pyval) (claims : pydict) :
  with_tokens tokens access_token claims !! "refresh_token"
  = match dict_get tokens "refresh_token" with
    | VNone => claims !! "refresh_token"
    | token => Some token
    end.
Proof.
  unfold with_tokens.
  destruct (dict_get tokens "refresh_token"); rewrite ?lookup_insert_eq; try reflexivity.
  by rewrite lookup_insert_ne.
Qed.

Lemma with_tokens_keeps (tokens : pydict) (access_token : pyval) (claims : pydict) (k : string) :
  is_Some (claims !! k) → is_Some (with_tokens tokens access_token claims !! k).
Proof.
  intros Hk. unfold with_tokens.
  destruct (dict_get tokens "refresh_token"); rewrite !lookup_insert_is_Some'; auto.
Qed.

Lemma with_tokens_truthy (tokens : pydict) (access_token : pyval) (claims : pydict) :
  truthy (VDict (with_tokens tokens access_token claims)) = true.
Proof.
  unfold with_tokens. destruct (dict_get tokens "refresh_token"); apply truthy_insert.
Qed.

Section verified.
Context `{Host}.

Lemma request_credentials_verified (rq : request) (code : pyval) (action_id : string)
    (w : world) (url : pyval) (r : http_response) (tokens : pydict)
    (id_token : pyval) (header : pydict) (key : jwt_key) (claims : pydict)
    (access_token : pyval) :
  endpoints (self w) !! "token_endpoint" = Some url →
  requests_request (token_request (self w) url (redirect_url rq) code) = Ok r →
  status_code r = 200 →
  json_body r = Ok (VDict tokens) →
  tokens !! "id_token" = Some id_token →
  jws_get_unverified_header id_token = Ok header →
  select_key (signing_keys (self w)) (dict_get header "kid") = Ok key →
  decode_id_token (self w) tokens id_token key = Ok claims →
  tokens !! "access_token" = Some access_token →
  request_credentials rq code action_id w
  = (Ok (with_tokens tokens access_token claims,
         if negb (String.eqb action_id "") then trigger_action action_id rq else rq),
     log_event (EvRequest (token_request (self w) url (redirect_url rq) code)) w).
Proof.
  intros Hurl Hresponse Hstatus Hbody Hid Hheader Hkey Hclaims Haccess.
  unfold request_credentials, create_token_request. run.
  unfold dict_item at 1. rewrite Hurl. run.
  rewrite send_request_run. rewrite py_or_empty, py_or_insert.
  unfold token_request in Hresponse. rewrite Hresponse.
  unfold raise_for_status. rewrite Hstatus. cbn [Z.leb Z.ltb Z.compare Pos.compare
    Pos.compare_cont andb]. cbn match. run. rewrite Hstatus.
  change (200 =? 400) with false. change (200 =? 200) with true. cbn [negb]. cbn match.
  rewrite Hbody. run. cbn [subscript]. unfold dict_item at 1. rewrite Hid. run.
  cbn [get_method]. run. unfold try_except. run.
  rewrite Hheader. run. rewrite Hkey. run. rewrite Hclaims. run.
  unfold dict_item. rewrite Haccess. run. reflexivity.
Qed.

(** C3 (amended).  When the ID token of the code exchange passes
    verification, the credentials [request_credentials] returns, and
    [get_principal] hands on, are all the claims [jwt.decode] answered, the
    protocol-reserved ones included and [sub] with them, together with the
    access token and, when the response has one, the refresh token: no
    claim is removed.  (Where the response has no refresh token, or [null],
    the entry of that name is what the claims had, if anything.) *)
Theorem verified_claims_are_kept (rq : request) (code : pyval) (action_id : string)
    (w : world) (url : pyval) (r : http_response) (tokens : pydict)
    (id_token : pyval) (header : pydict) (key : jwt_key) (claims : pydict)
    (access_token : pyval) :
  endpoints (self w) !! "token_endpoint" = Some url →
  requests_request (token_request (self w) url (redirect_url rq) code) = Ok r →
  status_code r = 200 →
  json_body r = Ok (VDict tokens) →
  tokens !! "id_token" = Some id_token →
  jws_get_unverified_header id_token = Ok header →
  select_key (signing_keys (self w)) (dict_get header "kid") = Ok key →
  decode_id_token (self w) tokens id_token key = Ok claims →
  tokens !! "access_token" = Some access_token →
  ∃ (credentials : pydict) (rq' : request) (w' : world),
    request_credentials rq code action_id w = (Ok (credentials, rq'), w')
    ∧ credentials !! "access_token" = Some access_token
    ∧ credentials !! "refresh_token"
      = match dict_get tokens "refresh_token" with
        | VNone => claims !! "refresh_token"
        | token => Some token
        end
    ∧ (∀ k, k ≠ "access_token" → k ≠ "refresh_token" → credentials !! k = claims !! k)
    ∧ (∀ k, is_Some (claims !! k) → is_Some (credentials !! k))
    ∧ ∀ (w0 : world) (s t : Z) (session : option pydict) (session_id state_id : Z),
        is_auth_response rq w0 = (Ok (code, s, t, action_id), w) →
        truthy code = true →
        ∃ (res : principal_result) (w'' : world),
          get_principal rq session session_id state_id w0 = (Ok res, w'')
          ∧ credentials_out res = credentials.
Proof.
  intros Hurl Hresponse Hstatus Hbody Hid Hheader Hkey Hclaims Haccess.
  pose proof (request_credentials_verified rq code action_id w url r tokens id_token
                header key claims access_token Hurl Hresponse Hstatus Hbody Hid Hheader
                Hkey Hclaims Haccess) as Hrun.
  destruct (with_tokens_lookup tokens access_token claims) as [Hat Hother].
  eexists _, _, _. split; [exact Hrun |]. split; [exact Hat |].
  split; [apply with_tokens_refresh |]. split; [exact Hother |].
  split; [intros k; apply with_tokens_keeps |].
  intros w0 s t session session_id state_id Hauth Hcode.
  unfold get_principal. run. rewrite Hauth. run. rewrite Hcode. run.
  rewrite Hrun. repeat (progress (rewrite ?with_tokens_truthy; cbn [negb]; run)).
  destruct (store_credentials_returns session (with_tokens tokens access_token claims)
              (log_event (EvRequest (token_request (self w) url (redirect_url rq) code)) w))
    as [session' ->].
  run. eexists _, _. split; reflexivity.
Qed.
End verified.

Lemma verified_claims_are_kept_witness :
  let host := Scenes.host (Ok (Scenes.answer 200 (VDict Scenes.renewable)))
                (Ok {[ "alg" := VStr "RS256" ]}) (Ok Demo.id_token_claims) in
  ∃ (credentials : pydict) (rq' : request) (w' : world),
    request_credentials (H := host) (Demo.callback "good" "") (VStr "good") "" Demo.idle
    = (Ok (credentials, rq'), w')
    ∧ credentials !! "access_token" = Some (VStr "t")
    ∧ credentials !! "refresh_token" = Some (VStr "r")
    ∧ (∀ k, k ≠ "access_token" → k ≠ "refresh_token" →
            credentials !! k = Demo.id_token_claims !! k)
    ∧ (∀ k, is_Some (Demo.id_token_claims !! k) → is_Some (credentials !! k))
    ∧ ∀ (w0 : world) (s t : Z) (session : option pydict) (session_id state_id : Z),
        is_auth_response (H := host) (Demo.callback "good" "") w0
        = (Ok (VStr "good", s, t, ""), Demo.idle) →
        truthy (VStr "good") = true →
        ∃ (res : principal_result) (w'' : world),
          get_principal (H := host) (Demo.callback "good" "") session session_id state_id w0
          = (Ok res, w'')
          ∧ credentials_out res = credentials.
Proof.
  apply (verified_claims_are_kept
           (H := Scenes.host (Ok (Scenes.answer 200 (VDict Scenes.renewable)))
                   (Ok {[ "alg" := VStr "RS256" ]}) (Ok Demo.id_token_claims))
           (Demo.callback "good" "") (VStr "good") ""
           Demo.idle (VStr "https://idp.example/token")
           (Scenes.answer 200 (VDict Scenes.renewable)) Scenes.renewable
           (VStr "header.payload.signature") {[ "alg" := VStr "RS256" ]}
           (KeyTable (signing_keys (self Demo.idle))) Demo.id_token_claims (VStr "t"));
    vm_compute; reflexivity.
Defined.

(** C3, as stated, fails: the ID token is verified, and the credentials
    [get_principal] hands to the application still hold the reserved claim
    [iss]. *)
Lemma reserved_claims_counterexample :
  ∃ (res : principal_result) (w' : world),
    get_principal (H := Demo.host) (Demo.callback "good" "") None 7 3 Demo.idle = (Ok res, w')
    ∧ "iss" ∈ EXCLUDED_CLAIMS
    ∧ credentials_out res !! "iss" = Some (VStr "https://idp.example").
Proof.
  eexists _, _. split; [vm_compute; reflexivity |].
  split; [| vm_compute; reflexivity].
  unfold EXCLUDED_CLAIMS. apply elem_of_union_l, elem_of_list_to_set. by left.
Qed.

(** ** Key refresh: what a run of [fetch_keys] can change *)

Lemma same_config_trans (a b c : authentication) :
  same_config a b → same_config b c → same_config a c.
Proof. unfold same_config. intros (? & ? & ?) (? & ? & ?). repeat split; congruence. Qed.

Ltac case_step :=
  match goal with
  | |- context [match ?x with _ => _ end] =>
      lazymatch type of x with
      | result _ => destruct x eqn:?
      | bool => destruct x eqn:?
      | option _ => destruct x eqn:?
      | unit => destruct x
      end
  | |- context [if ?x then _ else _] => destruct x eqn:?
  end.

Ltac run_cases := repeat (run; cbn [fst snd self trace clock]; try case_step).

Section refresh.
Context `{Host}.

Lemma fetch_keys_refresh_config (w : world) :
  same_config (self (fetch_keys_refresh w).2) (self w).
Proof.
  unfold fetch_keys_refresh. run. rewrite send_request_run.
  unfold emit, modify_self, time_now.
  run_cases; done.
Qed.

Lemma fetch_keys_config (w : world) : same_config (self (fetch_keys w).2) (self w).
Proof.
  unfold fetch_keys. run.
  destruct (fetch_keys_stale w) as [[[] | e] w1] eqn:Hstale.
  - pose proof (fetch_keys_refresh_config w1) as Hrefresh.
    assert (self w1 = self w) as <-; [| exact Hrefresh].
    revert Hstale. unfold fetch_keys_stale, time_now. run_cases; intros ?; by simplify_eq/=.
  - revert Hstale. unfold fetch_keys_stale, time_now. run_cases; intros ?; by simplify_eq/=.
  - revert Hstale. unfold fetch_keys_stale, time_now. run_cases; intros ?; by simplify_eq/=.
Qed.
End refresh.

(** ** Discovery at start-up: [handle_start] *)

Lemma endpoints_of_document (document : pydict) (endpoint : string) :
  endpoint ∈ ENDPOINTS →
  dict_of_items ((λ e, (e, dict_get document e)) <$> ENDPOINTS) !! endpoint
  = Some (dict_get document endpoint).
Proof.
  unfold ENDPOINTS, REQUIRED_ENDPOINTS, dict_of_items. cbn [app fmap list_fmap foldl fst snd].
  intros Hin. repeat (apply elem_of_cons in Hin as [-> | Hin]);
    [.. | by apply elem_of_nil in Hin];
    repeat first [apply lookup_insert_eq | rewrite lookup_insert_ne by discriminate].
Qed.

Section discovery.
Context `{Host}.

Lemma handle_start_discovery_run (w : world) (url : pyval) (r : http_response)
    (document : pydict) (new_issuer : pyval) :
  endpoints (self w) !! "discovery_endpoint" = Some url →
  truthy url = true →
  requests_request (discovery_request url) = Ok r →
  raise_for_status r = Ok tt →
  json_body r = Ok (VDict document) →
  document !! "issuer" = Some new_issuer →
  ∃ w', handle_start_discovery w = (Ok tt, w')
    ∧ endpoints (self w')
      = dict_of_items ((λ e, (e, dict_get document e)) <$> ENDPOINTS)
    ∧ jwks_uri (self w')
      = (if truthy (dict_get document "jwks_uri") && negb (truthy (jwks_uri (self w)))
         then dict_get document "jwks_uri" else jwks_uri (self w))
    ∧ issuer (self w') = new_issuer.
Proof.
  intros Hurl Htruthy Hresponse Hstatus Hbody Hissuer.
  unfold handle_start_discovery, create_discovery_request. run.
  unfold dict_item at 1. rewrite Hurl. run.
  assert (Hrequest : (match url with
                      | VNone => (VNone, VNone, VNone, VNone)
                      | _ => (VStr "GET", url, VDict ∅, VDict ∅)
                      end) = (VStr "GET", url, VDict ∅, VDict ∅))
    by (destruct url; [discriminate | reflexivity ..]).
  rewrite Hrequest. cbn match. rewrite Htruthy. run.
  rewrite send_request_run, py_or_empty. fold (discovery_request url).
  rewrite Hresponse, Hstatus, Hbody. run.
  cbn [subscript]. unfold dict_item at 1. rewrite Hissuer. run.
  unfold modify_self at 1. run. cbn [get_method]. run.
  unfold modify_self at 1. run. cbn [self log_event jwks_uri set_endpoints set_issuer].
  destruct (truthy (dict_get document "jwks_uri") && negb (truthy (jwks_uri (self w))));
    eexists; (split; [reflexivity |]); done.
Qed.

Lemma handle_start_keys_config (w : world) :
  same_config (self (handle_start_keys w).2) (self w).
Proof.
  unfold handle_start_keys. run. unfold time_now at 1. run.
  unfold modify_self at 1. run. cbn [self].
  set (a := set_jwks_expiration _ (self w)).
  assert (Ha : same_config a (self w)) by done.
  match goal with |- context [mapM ?f ?l] => destruct (mapM f l) as [values | e] end;
    [| exact Ha].
  run.
  match goal with
  | |- context [match ?l with [] => _ | _ :: _ => _ end] => destruct l
  end; unfold emit; run;
    (eapply same_config_trans; [apply fetch_keys_config | exact Ha]).
Qed.

(** C4 (amended).  When [handle_start] fetches a discovery document, the
    endpoints are replaced as a whole: each endpoint takes the value of its
    field in the document and is [None] when the document has no such field,
    whatever was configured before.  [jwks_uri] keeps its configured value
    and takes the document's only when none was configured; the issuer is
    the document's. *)
Theorem discovery_replaces_endpoints (w : world) (url : pyval) (r : http_response)
    (document : pydict) (new_issuer : pyval) :
  endpoints (self w) !! "discovery_endpoint" = Some url →
  truthy url = true →
  requests_request (discovery_request url) = Ok r →
  raise_for_status r = Ok tt →
  json_body r = Ok (VDict document) →
  document !! "issuer" = Some new_issuer →
  let a' := self (handle_start w).2 in
  (∀ endpoint, endpoint ∈ ENDPOINTS →
     endpoints a' !! endpoint = Some (dict_get document endpoint))
  ∧ jwks_uri a'
    = (if truthy (dict_get document "jwks_uri") && negb (truthy (jwks_uri (self w)))
       then dict_get document "jwks_uri" else jwks_uri (self w))
  ∧ issuer a' = new_issuer.
Proof.
  intros Hurl Htruthy Hresponse Hstatus Hbody Hissuer.
  destruct (handle_start_discovery_run (log_event (EvRegister (ident (self w))) w)
              url r document new_issuer Hurl Htruthy Hresponse Hstatus Hbody Hissuer)
    as (w1 & Hrun & He & Hu & Hi).
  assert (Hstart : handle_start w = handle_start_keys w1).
  { unfold handle_start. run. unfold emit. run. rewrite Hrun. by run. }
  destruct (handle_start_keys_config w1) as (He' & Hu' & Hi').
  rewrite Hstart. cbn zeta. cbn [self log_event] in Hu. rewrite He', Hu', Hi', He, Hu, Hi.
  split; [| by split]. intros endpoint Hin. by apply endpoints_of_document.
Qed.
End discovery.

Lemma discovery_replaces_endpoints_witness :
  let w := Demo.start (Demo.instance (VStr "https://idp.example/jwks") None) in
  let a' := self (handle_start (H := Demo.host) w).2 in
  (∀ endpoint, endpoint ∈ ENDPOINTS →
     endpoints a' !! endpoint = Some (dict_get Demo.discovery_fields endpoint))
  ∧ jwks_uri a'
    = (if truthy (dict_get Demo.discovery_fields "jwks_uri")
          && negb (truthy (jwks_uri (self w)))
       then dict_get Demo.discovery_fields "jwks_uri" else jwks_uri (self w))
  ∧ issuer a' = VStr "https://idp.example".
Proof.
  apply (discovery_replaces_endpoints (H := Demo.host)
           (Demo.start (Demo.instance (VStr "https://idp.example/jwks") None))
           (VStr "https://idp.example/.well-known/openid-configuration")
           Demo.discovery Demo.discovery_fields (VStr "https://idp.example"));
    vm_compute; reflexivity.
Defined.

(** C4, as stated, fails: the user-info endpoint is configured, the discovery
    document that is fetched has no such field, and the configured value is
    gone after [handle_start]. *)
Lemma discovery_counterexample :
  let w := Demo.start (Demo.instance (VStr "https://idp.example/jwks") None) in
  let w' := (handle_start (H := Demo.host) w).2 in
  endpoints (self w) !! "userinfo_endpoint" = Some (VStr "https://idp.example/userinfo")
  ∧ EvRequest (discovery_request (VStr "https://idp.example/.well-known/openid-configuration"))
    ∈ trace w'
  ∧ Demo.discovery_fields !! "userinfo_endpoint" = None
  ∧ endpoints (self w') !! "userinfo_endpoint" = Some VNone.
Proof.
  cbv zeta. split; [vm_compute; reflexivity |]. split; [| split; vm_compute; reflexivity].
  vm_compute. apply list_elem_of_further, list_elem_of_here.
Qed.

(** ** A key refresh that fails *)

Section refresh_failure.
Context `{Host}.

Lemma fetch_keys_stale_self (w w' : world) (r : result bool) :
  fetch_keys_stale w = (r, w') → self w' = self w.
Proof.
  unfold fetch_keys_stale, time_now. run_cases; intros ?; by simplify_eq/=.
Qed.

Lemma fetch_keys_refresh_failure (w w' : world) (e : exn) :
  fetch_keys_refresh w = (Raise e, w') →
  jwks_expiration (self w') = jwks_expiration (self w)
  ∧ (signing_keys (self w') = signing_keys (self w)
     ∨ fetched_key_set (self w) = Ok (signing_keys (self w')))
  ∧ (is_raise (fetched_key_set (self w)) = true →
     signing_keys (self w') = signing_keys (self w)).
Proof.
  unfold fetch_keys_refresh, fetched_key_set, jwks_key_set. run.
  rewrite send_request_run. cbn [py_or truthy]. fold (jwks_request (self w)).
  unfold emit, modify_self, time_now.
  destruct (requests_request (jwks_request (self w))) as [r | e0];
    [| intros ?; simplify_eq/=; by auto].
  cbn [mbind result_bind].
  destruct (raise_for_status r) as [[] | e0]; [| intros ?; simplify_eq/=; by auto].
  run.
  destruct (json_body r) as [body | e0]; [| intros ?; simplify_eq/=; by auto].
  run. cbn [mbind result_bind].
  destruct (get_method body) as [document | e0]; [| intros ?; simplify_eq/=; by auto].
  run. cbn [mbind result_bind].
  destruct (py_iter (default (VList []) (document !! "keys"))) as [keys | e0];
    [| intros ?; simplify_eq/=; by auto].
  run. cbn [mbind result_bind].
  destruct (mapM key_kid keys) as [kids | e0]; [| intros ?; simplify_eq/=; by auto].
  run. cbn [mbind result_bind].
  destruct (mapM key_entry keys) as [entries | e0].
  - run_cases; intros ?; simplify_eq/=; naive_solver.
  - run_cases; intros ?; simplify_eq/=; naive_solver.
Qed.
End refresh_failure.

Section refresh_outcome.
Context `{Host}.

(** C6 (amended).  When [fetch_keys] raises, the expiration is as it was, and
    the key mapping is either as it was or the complete key set of the
    document just fetched: it is never cleared first, never partly filled.
    When the failure is in the fetch itself or in reading the keys of the
    document, the mapping is as it was. *)
Theorem fetch_keys_failure (w w' : world) (e : exn) :
  fetch_keys w = (Raise e, w') →
  jwks_expiration (self w') = jwks_expiration (self w)
  ∧ (signing_keys (self w') = signing_keys (self w)
     ∨ fetched_key_set (self w) = Ok (signing_keys (self w')))
  ∧ (is_raise (fetched_key_set (self w)) = true →
     signing_keys (self w') = signing_keys (self w)).
Proof.
  unfold fetch_keys. run.
  destruct (fetch_keys_stale w) as [[[] | e0] w1] eqn:Hstale;
    pose proof (fetch_keys_stale_self _ _ _ Hstale) as Hself.
  - rewrite <- Hself. apply fetch_keys_refresh_failure.
  - discriminate.
  - intros [= <- <-]. rewrite Hself. auto.
Qed.
End refresh_outcome.

Lemma fetch_keys_failure_witness :
  let w := Demo.start (Demo.instance (VStr "https://idp.example/jwks-plain") (Some 500)) in
  let w' := (fetch_keys (H := Demo.host) w).2 in
  jwks_expiration (self w') = jwks_expiration (self w)
  ∧ (signing_keys (self w') = signing_keys (self w)
     ∨ fetched_key_set (H := Demo.host) (self w) = Ok (signing_keys (self w')))
  ∧ (is_raise (fetched_key_set (H := Demo.host) (self w)) = true →
     signing_keys (self w') = signing_keys (self w)).
Proof.
  apply (fetch_keys_failure (H := Demo.host) _ _ (KeyError "cache-control")).
  vm_compute. reflexivity.
Defined.

(** C6, as stated, fails: the JWKS answer has no [Cache-Control] header, the
    refresh raises [KeyError] after the key mapping was replaced, and the
    previous key is gone. *)
Lemma fetch_keys_failure_counterexample :
  let w := Demo.start (Demo.instance (VStr "https://idp.example/jwks-plain") (Some 500)) in
  ∃ w', fetch_keys (H := Demo.host) w = (Raise (KeyError "cache-control"), w')
    ∧ is_Some (signing_keys (self w) !! KStr "k1")
    ∧ signing_keys (self w') !! KStr "k1" = None
    ∧ is_Some (signing_keys (self w') !! KStr "k2").
Proof.
  eexists. split; [vm_compute; reflexivity |].
  split; [| split]; vm_compute; [by eexists | reflexivity | by eexists].
Qed.

(** ** Text: numerals, separators, ASCII *)

Lemma uint_acc_pos (d : Decimal.uint) (p : positive) :
  uint_acc d (N.pos p) = N.pos (Pos.of_uint_acc d p).
Proof.
  revert p. induction d; intros p; cbn [uint_acc Pos.of_uint_acc]; [reflexivity | ..];
    rewrite <- IHd; f_equal; lia.
Qed.

Lemma uint_acc_zero (d : Decimal.uint) : uint_acc d 0 = Pos.of_uint d.
Proof.
  induction d; cbn [uint_acc Pos.of_uint]; [reflexivity | exact IHd | ..];
    cbn [N.mul N.add]; apply uint_acc_pos.
Qed.

Lemma int_digits_uint (d : Decimal.uint) (acc : N) :
  int_digits (NilEmpty.string_of_uint d) true acc = Some (uint_acc d acc).
Proof.
  revert acc. induction d; intros acc; cbn [NilEmpty.string_of_uint int_digits uint_acc];
    [reflexivity | ..];
    (change (digit_value _) with (Some 0%N) || change (digit_value _) with (Some 1%N)
     || change (digit_value _) with (Some 2%N) || change (digit_value _) with (Some 3%N)
     || change (digit_value _) with (Some 4%N) || change (digit_value _) with (Some 5%N)
     || change (digit_value _) with (Some 6%N) || change (digit_value _) with (Some 7%N)
     || change (digit_value _) with (Some 8%N) || change (digit_value _) with (Some 9%N));
    cbn match; rewrite ?N.add_0_r; apply IHd.
Qed.

Lemma string_of_uint_decimal (d : Decimal.uint) :
  str_forall is_decimal (NilEmpty.string_of_uint d) = true.
Proof. induction d; cbn [NilEmpty.string_of_uint str_forall]; [reflexivity | exact IHd ..]. Qed.

Lemma string_of_uint_head (d : Decimal.uint) :
  d ≠ Decimal.Nil →
  ∃ c t, NilEmpty.string_of_uint d = String c t ∧ is_decimal c = true.
Proof. destruct d; [done | ..]; intros _; cbn [NilEmpty.string_of_uint]; by eexists _, _. Qed.

Lemma int_digits_numeral (p : positive) :
  int_digits (NilEmpty.string_of_uint (Pos.to_uint p)) false 0 = Some (N.pos p).
Proof.
  pose proof (Unsigned.to_uint_nonnil p) as Hnil.
  rewrite <- (DecimalPos.Unsigned.of_to p), <- uint_acc_zero.
  destruct (Pos.to_uint p) as [| d | d | d | d | d | d | d | d | d | d]; [done | ..];
    cbn [NilEmpty.string_of_uint int_digits uint_acc];
    (change (digit_value _) with (Some 0%N) || change (digit_value _) with (Some 1%N)
     || change (digit_value _) with (Some 2%N) || change (digit_value _) with (Some 3%N)
     || change (digit_value _) with (Some 4%N) || change (digit_value _) with (Some 5%N)
     || change (digit_value _) with (Some 6%N) || change (digit_value _) with (Some 7%N)
     || change (digit_value _) with (Some 8%N) || change (digit_value _) with (Some 9%N));
    cbn match; rewrite ?N.add_0_r; apply int_digits_uint.
Qed.

Lemma decimal_char (c : ascii) :
  is_decimal c = true →
  is_ascii_char c = true ∧ py_isspace c = false ∧ Ascii.eqb c "#" = false
  ∧ Ascii.eqb c "-" = false ∧ Ascii.eqb c "+" = false.
Proof.
  destruct c as [[] [] [] [] [] [] [] []]; vm_compute; intros Hd;
    first [discriminate Hd | repeat split; reflexivity].
Qed.

Lemma str_forall_impl (p q : ascii → bool) (s : string) :
  (∀ c, p c = true → q c = true) → str_forall p s = true → str_forall q s = true.
Proof.
  intros Hpq. induction s as [| c s IH]; [done |]. cbn [str_forall].
  intros [Hc Hs]%andb_true_iff. by rewrite (Hpq c Hc), IH.
Qed.

Lemma str_forall_app (p : ascii → bool) (s t : string) :
  str_forall p (s +:+ t) = str_forall p s && str_forall p t.
Proof.
  induction s as [| c s IH]; [reflexivity |].
  change (String c s +:+ t) with (String c (s +:+ t)). cbn [str_forall].
  by rewrite IH, andb_assoc.
Qed.

Lemma str_contains_forall (c : ascii) (s : string) :
  str_contains c s = negb (str_forall (λ x, negb (Ascii.eqb x c)) s).
Proof.
  induction s as [| x s IH]; [reflexivity |]. cbn [str_contains str_forall].
  rewrite IH. by destruct (Ascii.eqb x c).
Qed.

Lemma str_contains_app (c : ascii) (s t : string) :
  str_contains c (s +:+ t) = str_contains c s || str_contains c t.
Proof.
  induction s as [| x s IH]; [reflexivity |].
  change (String x s +:+ t) with (String x (s +:+ t)). cbn [str_contains].
  by rewrite IH, orb_assoc.
Qed.

Lemma int_isspace_isspace (c : ascii) : py_isspace c = false → int_isspace c = false.
Proof.
  destruct c as [[] [] [] [] [] [] [] []]; vm_compute; intros Hc;
    first [discriminate Hc | reflexivity].
Qed.

Lemma lstrip_head (space : ascii → bool) (c : ascii) (s : string) :
  space c = false → lstrip space (String c s) = String c s.
Proof. intros Hc. cbn [lstrip]. by rewrite Hc. Qed.

Lemma rstrip_id (space : ascii → bool) (s : string) :
  str_forall (λ c, negb (space c)) s = true → rstrip space s = s.
Proof.
  induction s as [| c s IH]; [done |]. cbn [str_forall rstrip].
  intros [Hc Hs]%andb_true_iff. rewrite (IH Hs).
  destruct s; [| reflexivity]. by apply negb_true_iff in Hc as ->.
Qed.

Lemma numeral_no_space (d : Decimal.uint) :
  str_forall (λ c, negb (int_isspace c)) (NilEmpty.string_of_uint d) = true.
Proof.
  apply (str_forall_impl is_decimal), string_of_uint_decimal.
  intros c Hc. destruct (decimal_char c Hc) as (_ & Hsp & _).
  by rewrite (int_isspace_isspace c Hsp).
Qed.

Lemma int_of_str_format_d (z : Z) : int_of_str (format_d z) = Ok z.
Proof.
  destruct z as [| p | p]; [reflexivity | ..]; unfold int_of_str, strip, format_d.
  - destruct (string_of_uint_head (Pos.to_uint p) (Unsigned.to_uint_nonnil p))
      as (c & t & Hs & Hc).
    pose proof (numeral_no_space (Pos.to_uint p)) as Hspace.
    pose proof (int_digits_numeral p) as Hdigits.
    rewrite Hs in *. destruct (decimal_char c Hc) as (_ & Hsp & _ & Hminus & Hplus).
    rewrite (lstrip_head int_isspace c t (int_isspace_isspace c Hsp)).
    rewrite (rstrip_id int_isspace _ Hspace), Hminus, Hplus.
    by rewrite Hdigits.
  - pose proof (numeral_no_space (Pos.to_uint p)) as Hspace.
    rewrite lstrip_head by reflexivity.
    rewrite rstrip_id by (cbn [str_forall]; by rewrite Hspace).
    change (Ascii.eqb "-" "-") with true. cbn match.
    by rewrite int_digits_numeral.
Qed.

Lemma format_d_decimal (z : Z) :
  str_forall (λ c, is_decimal c || Ascii.eqb c "-") (format_d z) = true.
Proof.
  assert (Hd : ∀ d, str_forall (λ c, is_decimal c || Ascii.eqb c "-")
                      (NilEmpty.string_of_uint d) = true).
  { intros d. apply (str_forall_impl is_decimal), string_of_uint_decimal.
    by intros c ->. }
  destruct z; [reflexivity | apply Hd |]. cbn [format_d str_forall]. by rewrite Hd.
Qed.

Lemma format_d_ascii (z : Z) : str_forall is_ascii_char (format_d z) = true.
Proof.
  apply (str_forall_impl (λ c, is_decimal c || Ascii.eqb c "-")), format_d_decimal.
  intros c [Hc | Hc]%orb_true_iff.
  - by destruct (decimal_char c Hc) as (-> & _).
  - by apply Ascii.eqb_eq in Hc as ->.
Qed.

Lemma format_d_no_hash (z : Z) : str_contains "#" (format_d z) = false.
Proof.
  rewrite str_contains_forall. apply negb_false_iff.
  apply (str_forall_impl (λ c, is_decimal c || Ascii.eqb c "-")), format_d_decimal.
  intros c [Hc | Hc]%orb_true_iff.
  - by destruct (decimal_char c Hc) as (_ & _ & -> & _).
  - by apply Ascii.eqb_eq in Hc as ->.
Qed.

Lemma split_nonempty (sep : ascii) (s : string) : split sep s ≠ [].
Proof.
  destruct s as [| c s]; [done |]. cbn [split].
  destruct (Ascii.eqb c sep); [done |]. by destruct (split sep s).
Qed.

Lemma split_plain (sep : ascii) (s : string) :
  str_contains sep s = false → split sep s = [s].
Proof.
  induction s as [| c s IH]; [done |]. cbn [str_contains split].
  intros [Hc Hs]%orb_false_iff. by rewrite Hc, (IH Hs).
Qed.

Lemma split_app (sep : ascii) (s t : string) :
  split sep (s +:+ String sep t) = (split sep s ++ split sep t)%list.
Proof.
  induction s as [| c s IH].
  - change ("" +:+ String sep t) with (String sep t). cbn [split].
    by rewrite Ascii.eqb_refl.
  - change (String c s +:+ String sep t) with (String c (s +:+ String sep t)).
    cbn [split]. rewrite IH. destruct (Ascii.eqb c sep); [reflexivity |].
    pose proof (split_nonempty sep s) as Hne. by destruct (split sep s).
Qed.

Lemma rsplit1_last (sep : ascii) (s t : string) :
  str_contains sep t = false →
  rsplit1 sep (s +:+ String sep t) !! 1%nat = Some t.
Proof.
  intros Ht. unfold rsplit1. rewrite split_app, (split_plain sep t Ht).
  rewrite reverse_app. cbn [reverse rev_append app].
  pose proof (split_nonempty sep s) as Hne.
  destruct (reverse (split sep s)) as [| x l] eqn:Hrev; [| reflexivity].
  apply (f_equal reverse) in Hrev. rewrite reverse_involutive in Hrev. done.
Qed.

Lemma append_char (c : ascii) (s : string) : String c "" +:+ s = String c s.
Proof. reflexivity. Qed.

Lemma split_packed_state (session_id state_id : Z) (action_id : string) :
  str_contains "#" action_id = false →
  split "#" (packed_state session_id state_id action_id)
  = [format_d session_id; format_d state_id; action_id].
Proof.
  intros Haction. unfold packed_state. rewrite !append_char, !split_app.
  by rewrite !split_plain by (done || apply format_d_no_hash).
Qed.

Lemma packed_state_ascii (session_id state_id : Z) (action_id : string) :
  str_forall is_ascii_char action_id = true →
  str_forall is_ascii_char (packed_state session_id state_id action_id) = true.
Proof.
  intros Haction. unfold packed_state. rewrite !append_char.
  rewrite str_forall_app. cbn [str_forall]. rewrite str_forall_app. cbn [str_forall].
  by rewrite !format_d_ascii, Haction.
Qed.

Lemma list_byte_of_string_app (s t : string) :
  list_byte_of_string (s +:+ t) = (list_byte_of_string s ++ list_byte_of_string t)%list.
Proof.
  induction s as [| c s IH]; [reflexivity |].
  change (String c s +:+ t) with (String c (s +:+ t)).
  change (list_byte_of_string (String c ?x)) with (byte_of_ascii c :: list_byte_of_string x).
  by rewrite IH.
Qed.

Lemma forallb_ascii_bytes (s : string) :
  forallb (λ x, is_ascii_char (ascii_of_byte x)) (list_byte_of_string s)
  = str_forall is_ascii_char s.
Proof.
  induction s as [| c s IH]; [reflexivity |].
  change (list_byte_of_string (String c s)) with (byte_of_ascii c :: list_byte_of_string s).
  cbn [forallb str_forall]. by rewrite ascii_of_byte_of_ascii, IH.
Qed.

Lemma decode_encode_ascii (s : string) :
  str_forall is_ascii_char s = true → decode_ascii (list_byte_of_string s) = Ok s.
Proof.
  intros Hs. unfold decode_ascii.
  by rewrite forallb_ascii_bytes, Hs, string_of_list_byte_of_string.
Qed.

Lemma encode_decode_ascii (b : bytes) :
  forallb (λ x, is_ascii_char (ascii_of_byte x)) b = true →
  decode_ascii b = Ok (string_of_list_byte b)
  ∧ encode_ascii (string_of_list_byte b) = Ok b.
Proof.
  intros Hb. unfold decode_ascii, encode_ascii. rewrite Hb. split; [done |].
  by rewrite <- forallb_ascii_bytes, list_byte_of_string_of_list_byte, Hb.
Qed.

(** ** The state parameter: encoding and decoding *)

Lemma py_or_str (s : string) : py_or (VStr s) (VStr "") = VStr s.
Proof. by destruct s. Qed.

Lemma prefix_char (c : ascii) (s : string) : String.prefix (String c "") (String c s) = true.
Proof. cbn [String.prefix]. destruct (ascii_dec c c); [by destruct s | done]. Qed.

Lemma packed_state_bytes (session_id state_id : Z) (action_id : string) :
  (list_byte_of_string (format_d session_id) ++ list_byte_of_string "#"
   ++ list_byte_of_string (format_d state_id) ++ list_byte_of_string "#"
   ++ list_byte_of_string action_id)%list
  = list_byte_of_string (packed_state session_id state_id action_id).
Proof. unfold packed_state. by rewrite !list_byte_of_string_app. Qed.

Section state_codec.
Context `{Host}.

Lemma create_auth_request_run (w : world) (session_id state_id : Z) (action_id : string)
    (redirect_url url : pyval) (scopes : list string) (extra : pydict) :
  let token := encrypt (list_byte_of_string (packed_state session_id state_id action_id)) in
  str_forall is_ascii_char action_id = true →
  forallb (λ x, is_ascii_char (ascii_of_byte x)) token = true →
  endpoints (self w) !! "authorization_endpoint" = Some url →
  extra !! "state" = None →
  ∃ query : pydict,
    create_auth_request session_id state_id (VStr action_id) redirect_url scopes extra w
    = (Ok (VStr "GET", url, VDict query, VDict ∅), w)
    ∧ query !! "state"
      = Some (VStr ("#" +:+ ident (self w) +:+ "#" +:+ string_of_list_byte token)).
Proof.
  intros token Haction Htoken Hurl Hextra.
  unfold create_auth_request. run. rewrite py_or_str.
  unfold encode_ascii. rewrite Haction. run.
  rewrite packed_state_bytes. fold token.
  destruct (encode_decode_ascii token Htoken) as [-> _]. run.
  unfold dict_item. rewrite Hurl. run.
  eexists. split; [reflexivity |].
  rewrite lookup_union_r by exact Hextra.
  rewrite !lookup_insert_ne by discriminate. apply lookup_insert_eq.
Qed.

Lemma is_auth_response_run (rq : request) (w : world) (code prefix : string)
    (session_id state_id : Z) (action_id : string) :
  let plaintext := list_byte_of_string (packed_state session_id state_id action_id) in
  let token := encrypt plaintext in
  str_forall is_ascii_char action_id = true →
  str_contains "#" action_id = false →
  decrypt token = Ok plaintext →
  forallb (λ x, is_ascii_char (ascii_of_byte x)) token = true →
  str_contains "#" (string_of_list_byte token) = false →
  params rq !! "state" = Some ("#" +:+ prefix +:+ "#" +:+ string_of_list_byte token) →
  params rq !! "code" = Some code → code ≠ "" →
  is_auth_response rq w
  = (Ok (VStr code, session_id, state_id, action_id), log_event (EvDecrypt token) w).
Proof.
  intros plaintext token Haction Hhash Hdecrypt Htoken Hclean Hstate Hcode Hne.
  unfold is_auth_response. rewrite Hcode, Hstate. cbn [default from_option truthy id].
  assert (String.eqb code "" = false) as -> by (by apply String.eqb_neq).
  cbn [negb andb]. rewrite !append_char.
  rewrite prefix_char.
  change (String "#" (prefix +:+ String "#" (string_of_list_byte token)))
    with (String "#" prefix +:+ String "#" (string_of_list_byte token)).
  rewrite (rsplit1_last "#" _ _ Hclean). run. unfold try_except. run.
  destruct (encode_decode_ascii token Htoken) as [_ ->]. run. unfold emit. run.
  rewrite Hdecrypt. run. unfold plaintext.
  rewrite (decode_encode_ascii _ (packed_state_ascii session_id state_id _ Haction)). run.
  rewrite (split_packed_state _ _ _ Hhash). run.
  cbn [py_int]. rewrite !int_of_str_format_d. by run.
Qed.

(** C8.  For integers [session_id] and [state_id] and an ASCII [action_id]
    without ['#'], with a cipher that gives this state back and whose token
    for it is ASCII text without ['#']: the [state] parameter that
    [create_auth_request] builds from the triple is decoded by
    [is_auth_response], on a callback that carries it with a code, to the
    same triple. *)
Theorem state_round_trip (w : world) (session_id state_id : Z) (action_id : string)
    (redirect_url url : pyval) (scopes : list string) (extra : pydict) :
  let plaintext := list_byte_of_string (packed_state session_id state_id action_id) in
  let token := encrypt plaintext in
  str_forall is_ascii_char action_id = true →
  str_contains "#" action_id = false →
  decrypt token = Ok plaintext →
  forallb (λ x, is_ascii_char (ascii_of_byte x)) token = true →
  str_contains "#" (string_of_list_byte token) = false →
  endpoints (self w) !! "authorization_endpoint" = Some url →
  extra !! "state" = None →
  ∃ (query : pydict) (state : string),
    create_auth_request session_id state_id (VStr action_id) redirect_url scopes extra w
    = (Ok (VStr "GET", url, VDict query, VDict ∅), w)
    ∧ query !! "state" = Some (VStr state)
    ∧ ∀ (rq : request) (w' : world) (code : string),
        params rq !! "state" = Some state →
        params rq !! "code" = Some code → code ≠ "" →
        is_auth_response rq w'
        = (Ok (VStr code, session_id, state_id, action_id),
           log_event (EvDecrypt token) w').
Proof.
  intros plaintext token Haction Hhash Hdecrypt Htoken Hclean Hurl Hextra.
  destruct (create_auth_request_run w session_id state_id action_id redirect_url url
              scopes extra Haction Htoken Hurl Hextra) as (query & Hrun & Hstate).
  exists query, ("#" +:+ ident (self w) +:+ "#" +:+ string_of_list_byte token).
  split; [exact Hrun |]. split; [exact Hstate |].
  intros rq w' code Hrq Hcode Hne.
  by apply (is_auth_response_run rq w' code (ident (self w))).
Qed.
End state_codec.

Lemma state_round_trip_witness :
  ∃ (query : pydict) (state : string),
    create_auth_request (H := Demo.host) 7 3 (VStr "") (VStr "https://app.example/")
      ["email"] ∅ Demo.idle
    = (Ok (VStr "GET", VStr "https://idp.example/authorize", VDict query, VDict ∅), Demo.idle)
    ∧ query !! "state" = Some (VStr state)
    ∧ ∀ (rq : request) (w' : world) (code : string),
        params rq !! "state" = Some state →
        params rq !! "code" = Some code → code ≠ "" →
        is_auth_response (H := Demo.host) rq w'
        = (Ok (VStr code, 7, 3, ""),
           log_event (EvDecrypt (Demo.hex (list_byte_of_string (packed_state 7 3 "")))) w').
Proof.
  apply (state_round_trip (H := Demo.host) Demo.idle 7 3 "" (VStr "https://app.example/")
           (VStr "https://idp.example/authorize") ["email"] ∅);
    vm_compute; reflexivity.
Defined.

(** ** Concurrent callers *)

Lemma fetches_snoc (t : list event) (e : event) :
  fetches (t ++ [e]) = (fetches t + (if is_request e then 1 else 0))%nat.
Proof.
  unfold fetches. rewrite List.filter_app, length_app. cbn [List.filter].
  by destruct (is_request e).
Qed.

Lemma count_insert (f : thread → bool) (l : list thread) (i : nat) (x y : thread) :
  l !! i = Some x →
  (count f (<[i := y]> l) + (if f x then 1 else 0)
   = count f l + (if f y then 1 else 0))%nat.
Proof.
  unfold count. revert i. induction l as [| z l IH]; intros i Hi; [done |].
  destruct i as [| i]; cbn in Hi.
  - injection Hi as ->. cbn [list_insert insert List.filter].
    destruct (f x), (f y); cbn [Datatypes.length]; lia.
  - specialize (IH i Hi). cbn [insert list_insert List.filter].
    destruct (f z); cbn [Datatypes.length Nat.add]; [f_equal |]; exact IH.
Qed.

Lemma count_le_length (f : thread → bool) (l : list thread) :
  (count f l ≤ List.length l)%nat.
Proof. unfold count. apply List.filter_length_le. Qed.

Section callers.
Context `{Host}.

Lemma fetch_keys_stale_trace (w : world) : trace (fetch_keys_stale w).2 = trace w.
Proof. unfold fetch_keys_stale, time_now. run_cases; done. Qed.

Lemma fetch_keys_refresh_fetches (w : world) :
  fetches (trace (fetch_keys_refresh w).2) = S (fetches (trace w)).
Proof.
  unfold fetch_keys_refresh. run. rewrite send_request_run.
  unfold emit, modify_self, time_now.
  run_cases; cbn [trace log_event]; rewrite ?fetches_snoc; cbn [is_request]; lia.
Qed.

Lemma pool_step_invariant (n base i : nat) (p : pool) :
  pool_invariant n base p → pool_invariant n base (pool_step i p).
Proof.
  intros (Hlen & Hlock & Hfetch). unfold pool_step.
  destruct (threads p !! i) as [[| | | refreshed failure] |] eqn:Hi; [| | | done | done].
  - pose proof (fetch_keys_stale_trace (shared p)) as Htrace.
    destruct (fetch_keys_stale (shared p)) as [[[] | e] w1]; cbn [snd] in Htrace;
      (split; [cbn [threads]; by rewrite length_insert |]);
      cbn [threads locked shared]; rewrite Htrace;
      match goal with
      | |- context [<[i := ?y]> (threads p)] =>
          pose proof (count_insert in_refresh _ _ _ y Hi) as Hin;
          pose proof (count_insert has_refreshed _ _ _ y Hi) as Hdone
      end; cbn [in_refresh has_refreshed] in Hin, Hdone; split; lia.
  - destruct (locked p) eqn:Hlocked;
      [unfold pool_invariant; rewrite Hlocked; exact (conj Hlen (conj Hlock Hfetch)) |].
    split; [cbn [threads]; by rewrite length_insert |].
    cbn [threads locked shared].
    pose proof (count_insert in_refresh _ _ _ InRefresh Hi) as Hin.
    pose proof (count_insert has_refreshed _ _ _ InRefresh Hi) as Hdone.
    cbn [in_refresh has_refreshed] in Hin, Hdone. split; lia.
  - pose proof (fetch_keys_refresh_fetches (shared p)) as Htrace.
    pose proof (count_insert in_refresh _ _ _ AtGuard Hi) as Hpos.
    cbn [in_refresh] in Hpos.
    destruct (locked p); [| lia].
    destruct (fetch_keys_refresh (shared p)) as [[[] | e] w1]; cbn [snd] in Htrace;
      (split; [cbn [threads]; by rewrite length_insert |]);
      cbn [threads locked shared]; rewrite Htrace;
      match goal with
      | |- context [<[i := ?y]> (threads p)] =>
          pose proof (count_insert in_refresh _ _ _ y Hi) as Hin;
          pose proof (count_insert has_refreshed _ _ _ y Hi) as Hdone
      end; cbn [in_refresh has_refreshed] in Hin, Hdone; split; lia.
Qed.

Lemma pool_run_invariant (n base : nat) (schedule : list nat) (p : pool) :
  pool_invariant n base p → pool_invariant n base (pool_run schedule p).
Proof.
  revert p. induction schedule as [| i schedule IH]; intros p Hp; [exact Hp |].
  cbn [pool_run foldl]. apply IH. by apply pool_step_invariant.
Qed.

Lemma pool_start_invariant (n : nat) (w : world) :
  pool_invariant n (fetches (trace w)) (pool_start n w).
Proof.
  unfold pool_invariant, pool_start. cbn [threads locked shared].
  assert (Hzero : ∀ f, f AtGuard = false → count f (replicate n AtGuard) = 0%nat).
  { intros f Hf. unfold count. induction n as [| k IH]; [done |].
    cbn [replicate List.filter]. by rewrite Hf. }
  rewrite length_replicate, !Hzero by done. split; [done |]. split; [done | lia].
Qed.

(** C9 (amended).  For [n] callers of [fetch_keys] on one instance, under
    every schedule: at most one caller is inside the locked block at a time,
    each caller that ran the block sent its own JWKS request, and no other
    request was sent; so the refresh takes as many requests as callers found
    the keys stale, at most [n], one after the other. *)
Theorem concurrent_refreshes (n : nat) (w : world) (schedule : list nat) :
  let p := pool_run schedule (pool_start n w) in
  (count in_refresh (threads p) ≤ 1)%nat
  ∧ fetches (trace (shared p))
    = (fetches (trace w) + count has_refreshed (threads p))%nat
  ∧ (count has_refreshed (threads p) ≤ n)%nat.
Proof.
  intros p.
  destruct (pool_run_invariant n (fetches (trace w)) schedule _ (pool_start_invariant n w))
    as (Hlen & Hlock & Hfetch). fold p in Hlen, Hlock, Hfetch.
  split; [rewrite Hlock; destruct (locked p); lia |]. split; [exact Hfetch |].
  rewrite <- Hlen. apply count_le_length.
Qed.
End callers.

(** C9, as stated, fails: two callers find the keys stale before either has
    refreshed them, and each sends the JWKS request, the second once the first
    has released the lock. *)
Lemma concurrent_refreshes_counterexample :
  let w := Demo.start (Demo.instance (VStr "https://idp.example/jwks") (Some 500)) in
  let p := pool_run (H := Demo.host) [0; 1; 0; 0; 1; 1]%nat (pool_start 2 w) in
  threads p = [Returned true None; Returned true None]
  ∧ fetches (trace w) = 0%nat
  ∧ fetches (trace (shared p)) = 2%nat.
Proof. vm_compute. done. Qed.

(** * Further properties of the code *)

(** ** When [fetch_keys] talks to the provider *)

Section freshness.
Context `{Host}.

Lemma fetch_keys_stale_run (w : world) :
  fetch_keys_stale w
  = (Ok (stale_now w),
     if truthy (jwks_uri (self w))
        && match jwks_expiration (self w) with
           | Some expiration => negb (expiration =? 0)
           | None => false
           end
     then {| self := self w; trace := trace w; clock := S (clock w) |} else w).
Proof.
  unfold fetch_keys_stale, stale_now, time_now. run.
  destruct (truthy (jwks_uri (self w))); [| reflexivity].
  destruct (jwks_expiration (self w)) as [expiration |]; [| reflexivity].
  destruct (negb (expiration =? 0)); reflexivity.
Qed.

Lemma fetch_keys_fetches (w : world) :
  fetches (trace (fetch_keys w).2)
  = (fetches (trace w) + (if stale_now w then 1 else 0))%nat.
Proof.
  unfold fetch_keys. run. rewrite fetch_keys_stale_run.
  destruct (stale_now w) eqn:Hstale.
  - rewrite fetch_keys_refresh_fetches. destruct (_ && _); cbn [trace]; lia.
  - run. cbn [fst snd]. destruct (_ && _); cbn [trace]; lia.
Qed.

(** X1.  [fetch_keys] sends exactly one request when a JWKS URL is set, an
    expiration other than zero is stored and the clock has passed it, whatever
    the request then gives; in every other case it sends none, returns
    normally and leaves the instance as it is. *)
Theorem fetch_keys_request_count (w : world) :
  fetches (trace (fetch_keys w).2)
  = (fetches (trace w) + (if stale_now w then 1 else 0))%nat
  ∧ (stale_now w = false →
     (fetch_keys w).1 = Ok tt
     ∧ self (fetch_keys w).2 = self w ∧ trace (fetch_keys w).2 = trace w).
Proof.
  unfold fetch_keys. run. rewrite fetch_keys_stale_run.
  destruct (stale_now w) eqn:Hstale.
  - split; [| done]. rewrite fetch_keys_refresh_fetches.
    destruct (_ && _); cbn [trace]; lia.
  - run. cbn [fst snd]. destruct (_ && _); cbn [trace self]; split; (lia || done).
Qed.
End freshness.

(** ** What a refresh stores *)

Lemma dom_dict_of_items `{Countable K} {V} (items : list (K * V)) :
  dom (dict_of_items items) = list_to_set items.*1.
Proof.
  unfold dict_of_items.
  enough (Hgen : ∀ m : gmap K V,
            dom (foldl (λ m kv, <[kv.1 := kv.2]> m) m items) = dom m ∪ list_to_set items.*1).
  { by rewrite Hgen, dom_empty_L, (left_id_L ∅ (∪)). }
  induction items as [| [k v] items IH]; intros m; cbn [foldl fmap list_fmap list_to_set].
  - by rewrite (right_id_L ∅ (∪)).
  - rewrite IH, dom_insert_L. cbn [fst snd].
    by rewrite (comm_L (∪) {[k]} (dom m)), (assoc_L (∪)).
Qed.

Lemma key_entries_ids (keys : list pyval) (kids : list hkey) :
  mapM key_kid keys = Ok kids →
  ∃ entries, mapM key_entry keys = Ok entries ∧ entries.*1 = kids.
Proof.
  revert kids. induction keys as [| key keys IH]; intros kids.
  - intros [= <-]. by exists [].
  - cbn [mapM]. unfold key_entry at 1.
    destruct (key_kid key) as [kid |] eqn:Hkid; [| done].
    destruct (mapM key_kid keys) as [rest |]; [| done]. intros [= <-].
    destruct (IH rest eq_refl) as (entries & -> & <-).
    cbn [mbind result_bind]. unfold key_kid, subscript in Hkid.
    destruct key; try discriminate. by eexists.
Qed.

Section stored_keys.
Context `{Host}.

(** X2.  When the key identifiers of the fetched document are those of the
    stored keys, the refresh keeps the stored mapping as it is, even where the
    document has other key material under the same identifiers. *)
Theorem refresh_same_ids_keeps_keys (w : world) :
  fetched_key_ids (self w) = Ok (dom (signing_keys (self w))) →
  signing_keys (self (fetch_keys_refresh w).2) = signing_keys (self w).
Proof.
  unfold fetch_keys_refresh, fetched_key_ids. run.
  rewrite send_request_run. cbn [py_or truthy]. fold (jwks_request (self w)).
  unfold emit, modify_self, time_now.
  destruct (requests_request (jwks_request (self w))) as [r | e0]; [| done].
  cbn [mbind result_bind].
  destruct (raise_for_status r) as [[] | e0]; [| done]. run.
  destruct (json_body r) as [body | e0]; [| done]. run. cbn [mbind result_bind].
  destruct (get_method body) as [document | e0]; [| done]. run. cbn [mbind result_bind].
  destruct (py_iter (default (VList []) (document !! "keys"))) as [keys | e0]; [| done].
  run. cbn [mbind result_bind].
  destruct (mapM key_kid keys) as [kids | e0]; [| done]. run. cbn [mret result_ret].
  intros [= ->]. rewrite bool_decide_eq_false_2 by (intros Hne; by apply Hne).
  run_cases; done.
Qed.

(** X3.  After a refresh that returns normally, the identifiers of the stored
    keys are exactly the key identifiers of the document that was fetched. *)
Theorem refresh_stores_fetched_ids (w w' : world) :
  fetch_keys_refresh w = (Ok tt, w') →
  fetched_key_ids (self w) = Ok (dom (signing_keys (self w'))).
Proof.
  unfold fetch_keys_refresh, fetched_key_ids. run.
  rewrite send_request_run. cbn [py_or truthy]. fold (jwks_request (self w)).
  unfold emit, modify_self, time_now.
  destruct (requests_request (jwks_request (self w))) as [r | e0]; [| done].
  cbn [mbind result_bind].
  destruct (raise_for_status r) as [[] | e0]; [| done]. run.
  destruct (json_body r) as [body | e0]; [| done]. run. cbn [mbind result_bind].
  destruct (get_method body) as [document | e0]; [| done]. run. cbn [mbind result_bind].
  destruct (py_iter (default (VList []) (document !! "keys"))) as [keys | e0]; [| done].
  run. cbn [mbind result_bind].
  destruct (mapM key_kid keys) as [kids | e0] eqn:Hkids; [| done]. run. cbn [mret result_ret].
  destruct (key_entries_ids keys kids Hkids) as (entries & Hentries & Hfst).
  destruct (bool_decide (list_to_set kids ≠ dom (signing_keys (self w)))) eqn:Hsame.
  - run. rewrite Hentries. run_cases; intros ?; simplify_eq/=;
      by rewrite dom_dict_of_items.
  - apply bool_decide_eq_false in Hsame. apply dec_stable in Hsame.
    run_cases; intros ?; simplify_eq/=; by rewrite Hsame.
Qed.
End stored_keys.

Lemma refresh_same_ids_keeps_keys_witness :
  let a := set_signing_keys {[ KStr "k2" := VDict {[ "kty" := VStr "EC" ]} ]}
             (Demo.instance (VStr "https://idp.example/jwks") (Some 500)) in
  signing_keys (self (fetch_keys_refresh (H := Demo.host) (Demo.start a)).2)
  = signing_keys a.
Proof.
  apply (refresh_same_ids_keeps_keys (H := Demo.host)). vm_compute. reflexivity.
Defined.

Lemma refresh_stores_fetched_ids_witness :
  let w := Demo.start (Demo.instance (VStr "https://idp.example/jwks") (Some 500)) in
  fetched_key_ids (H := Demo.host) (self w)
  = Ok (dom (signing_keys (self (fetch_keys_refresh (H := Demo.host) w).2))).
Proof.
  apply (refresh_stores_fetched_ids (H := Demo.host)). vm_compute. reflexivity.
Defined.

(** ** Freshness after a refresh *)

Lemma isdigit_nonempty (s : string) : isdigit s = true → String.eqb s "" = false.
Proof. unfold isdigit. by destruct (String.eqb s ""). Qed.

Section max_age.
Context `{Host}.

(** X4.  A refresh whose answer is accepted, holds a well-formed key set
    whose identifiers can be sorted, as those of the stored keys can, and a
    [Cache-Control] header that can be read, with a [max-age] directive that
    is a decimal numeral [n] of at most 640 digits (what no setting of the
    interpreter's limit on conversions refuses).  When [n] has a [float],
    the refresh returns normally and stores as expiration the clock reading
    plus [n]; as long as the clock has not passed it, the next [fetch_keys]
    sends no request.  When [n] is too large for a [float] (from 309 digits
    on), the sum of line 270 raises [OverflowError]: the refresh fails and
    the expiration stays as it was. *)
Theorem refresh_sets_expiration (w : world) (r : http_response) (keys : key_table)
    (header : string) (controls : gmap string string) (max_age : string) (n : Z) :
  requests_request (jwks_request (self w)) = Ok r →
  raise_for_status r = Ok tt →
  jwks_key_set r = Ok keys →
  py_sorted (dom keys) = Ok (dom keys) →
  py_sorted (dom (signing_keys (self w))) = Ok (dom (signing_keys (self w))) →
  headers r !! "cache-control" = Some header →
  cache_controls header = Ok controls →
  controls !! "max-age" = Some max_age →
  isdigit max_age = true →
  (String.length max_age ≤ 640)%nat →
  int_of_str max_age = Ok n →
  ∃ w',
    if float_overflow <=? Z.abs n
    then fetch_keys_refresh w = (Raise OverflowError, w')
         ∧ jwks_expiration (self w') = jwks_expiration (self w)
    else fetch_keys_refresh w = (Ok tt, w')
         ∧ jwks_expiration (self w') = Some (time_time (clock w) + n)
         ∧ (time_time (clock w') ≤ time_time (clock w) + n →
            fetches (trace (fetch_keys w').2) = fetches (trace w')).
Proof.
  intros Hr Hstatus Hkeys Hnew Hold Hheader Hcontrols Hmax Hdigit _ Hint.
  assert (Hrun : ∃ w',
            if float_overflow <=? Z.abs n
            then fetch_keys_refresh w = (Raise OverflowError, w')
                 ∧ jwks_expiration (self w') = jwks_expiration (self w)
            else fetch_keys_refresh w = (Ok tt, w')
                 ∧ jwks_expiration (self w') = Some (time_time (clock w) + n)
                 ∧ clock w' = S (clock w)).
  { revert Hkeys Hnew. unfold fetch_keys_refresh, jwks_key_set. run.
    rewrite send_request_run. cbn [py_or truthy]. fold (jwks_request (self w)).
    rewrite Hr, Hstatus. unfold emit, modify_self, time_now.
    destruct (json_body r) as [body | e0]; [| done]. run. cbn [mbind result_bind].
    destruct (get_method body) as [document | e0]; [| done]. run. cbn [mbind result_bind].
    destruct (py_iter (default (VList []) (document !! "keys"))) as [ks | e0]; [| done].
    run. cbn [mbind result_bind].
    destruct (mapM key_kid ks) as [kids | e0] eqn:Hkids; [| done].
    run. cbn [mbind result_bind].
    destruct (key_entries_ids ks kids Hkids) as (entries & -> & Hfst).
    intros [= <-]. rewrite dom_dict_of_items, Hfst. intros Hnew.
    rewrite Hheader.
    destruct (bool_decide (list_to_set kids ≠ dom (signing_keys (self w))));
      rewrite Hold, ?Hnew;
      run; cbn [self trace clock log_event]; rewrite Hcontrols; run; rewrite Hmax;
      rewrite (isdigit_nonempty _ Hdigit), Hdigit; cbn [negb andb]; run;
      rewrite Hint; run; unfold float_add_int;
      destruct (float_overflow <=? Z.abs n); run; eexists; (split; [reflexivity |]);
      done. }
  destruct Hrun as (w' & Hrun). exists w'.
  destruct (float_overflow <=? Z.abs n); [exact Hrun |].
  destruct Hrun as (Hrun & Hexp & Hclock).
  split; [exact Hrun |]. split; [exact Hexp |]. intros Hfresh.
  rewrite fetch_keys_fetches.
  assert (stale_now w' = false) as ->; [| lia].
  unfold stale_now. rewrite Hexp.
  assert ((time_time (clock w) + n <? time_time (clock w')) = false) as ->
    by (apply Z.ltb_ge; lia).
  by rewrite !andb_false_r.
Qed.
End max_age.

Lemma refresh_sets_expiration_witness :
  let w := Demo.start (Demo.instance (VStr "https://idp.example/jwks") (Some 500)) in
  ∃ w', fetch_keys_refresh (H := Demo.host) w = (Ok tt, w')
    ∧ jwks_expiration (self w') = Some (time_time (Host := Demo.host) (clock w) + 60)
    ∧ (time_time (Host := Demo.host) (clock w')
       ≤ time_time (Host := Demo.host) (clock w) + 60 →
       fetches (trace (fetch_keys (H := Demo.host) w').2) = fetches (trace w')).
Proof.
  apply (refresh_sets_expiration (H := Demo.host) _ Demo.keys_cached
           {[ KStr "k2" := VDict {[ "kty" := VStr "RSA" ]} ]} "public, max-age=60"
           {[ "max-age" := "60" ]} "60" 60);
    first [vm_compute; reflexivity | cbn; lia].
Defined.

(** ** The directives of [Cache-Control] *)

Lemma length_split (sep : ascii) (s : string) :
  List.length (split sep s) = S (count_char sep s).
Proof.
  induction s as [| c s IH]; [reflexivity |]. cbn [split count_char].
  destruct (Ascii.eqb c sep); cbn [Datatypes.length Nat.add]; [by rewrite IH |].
  pose proof (split_nonempty sep s) as Hne.
  destruct (split sep s); [done | exact IH].
Qed.

Lemma str_contains_count (c : ascii) (s : string) :
  str_contains c s = negb (Nat.eqb (count_char c s) 0).
Proof.
  induction s as [| x s IH]; [reflexivity |]. cbn [str_contains count_char].
  rewrite IH. by destruct (Ascii.eqb x c).
Qed.

Lemma count_char_app (c : ascii) (s t : string) :
  count_char c (s +:+ t) = (count_char c s + count_char c t)%nat.
Proof.
  induction s as [| x s IH]; [reflexivity |].
  change (String x s +:+ t) with (String x (s +:+ t)). cbn [count_char].
  rewrite IH. lia.
Qed.

(** X5.  Reading a [Cache-Control] header succeeds when no directive has more
    than one ['='], and raises [ValueError] as soon as one directive has two. *)
Theorem cache_controls_accepts (header : string) :
  (Forall (λ v, (count_char "=" v ≤ 1)%nat) (split "," header) →
   ∃ controls, cache_controls header = Ok controls)
  ∧ (Exists (λ v, (2 ≤ count_char "=" v)%nat) (split "," header) →
     cache_controls header = Raise ValueError).
Proof.
  unfold cache_controls.
  set (read := λ kv : list string,
         match kv with [k; v] => Ok (strip k, strip v) | _ => Raise ValueError end).
  assert (Hpart : ∀ v, str_contains "=" v = true →
            ((count_char "=" v ≤ 1)%nat → ∃ kv, read (split "=" v) = Ok kv)
            ∧ ((2 ≤ count_char "=" v)%nat → read (split "=" v) = Raise ValueError)).
  { intros v Hv. pose proof (length_split "=" v) as Hlen.
    rewrite str_contains_count in Hv. apply negb_true_iff, Nat.eqb_neq in Hv.
    destruct (split "=" v) as [| a [| b [| c l]]]; cbn [Datatypes.length] in Hlen;
      split; intros Hcount; try lia; first [by eexists | reflexivity]. }
  generalize (split "," header). intros parts. split.
  - intros Hall.
    enough (∃ pairs, mapM read (split "=" <$> List.filter (str_contains "=") parts) = Ok pairs)
      as [pairs ->] by by eexists.
    induction Hall as [| v parts Hv Hall IH]; [by eexists |]. cbn [List.filter].
    destruct (str_contains "=" v) eqn:Hin; [| exact IH].
    rewrite fmap_cons. cbn [mapM]. destruct (proj1 (Hpart v Hin) Hv) as [kv ->].
    destruct IH as [pairs ->]. by eexists.
  - intros Hsome.
    enough (mapM read (split "=" <$> List.filter (str_contains "=") parts) = Raise ValueError)
      as -> by done.
    induction parts as [| v parts IH]; [by apply Exists_nil in Hsome |]. cbn [List.filter].
    destruct (str_contains "=" v) eqn:Hin.
    + rewrite fmap_cons. cbn [mapM].
      destruct (le_lt_dec 2 (count_char "=" v)) as [Htwo | Hone].
      * by rewrite (proj2 (Hpart v Hin) Htwo).
      * destruct (proj1 (Hpart v Hin)) as [kv ->]; [lia |].
        apply Exists_cons in Hsome as [Hv | Hrest]; [lia |].
        by rewrite (IH Hrest).
    + apply Exists_cons in Hsome as [Hv | Hrest]; [| by apply IH].
      rewrite str_contains_count in Hin. apply negb_false_iff, Nat.eqb_eq in Hin. lia.
Qed.

(** ** Decoding the state: the other outcomes *)

Section rejected_token.
Context `{Host}.

(** X6.  When the part of the state after the last ['#'] is ASCII text that
    the cipher rejects with [InvalidToken], the code is dropped and the
    defaults are answered: the request is handled as one without code, and
    no exception leaves the method. *)
Theorem rejected_token_drops_code (rq : request) (w : world)
    (code state part : string) (token : bytes) :
  params rq !! "code" = Some code → code ≠ "" →
  params rq !! "state" = Some state → String.prefix "#" state = true →
  rsplit1 "#" state !! 1%nat = Some part →
  encode_ascii part = Ok token →
  decrypt token = Raise InvalidToken →
  is_auth_response rq w = (Ok (VNone, 0, 0, ""), log_event (EvDecrypt token) w).
Proof. apply is_auth_response_invalid_token. Qed.
End rejected_token.

Lemma rejected_token_drops_code_witness :
  is_auth_response (H := Demo.host) (Demo.callback "abc" "#oidc#zz") Demo.idle
  = (Ok (VNone, 0, 0, ""), log_event (EvDecrypt (list_byte_of_string "zz")) Demo.idle).
Proof.
  apply (rejected_token_drops_code (H := Demo.host) _ _ "abc" "#oidc#zz" "zz");
    first [discriminate | vm_compute; reflexivity].
Defined.

Section state_fields.
Context `{Host}.

(** X7.  An action identifier that holds a ['#'] does not come back: the
    state built from it is decrypted to more than three fields, the unpacking
    raises [ValueError], which the [except] clause does not catch. *)
Theorem is_auth_response_hash_in_action (rq : request) (w : world) (code prefix : string)
    (session_id state_id : Z) (action_id : string) :
  let plaintext := list_byte_of_string (packed_state session_id state_id action_id) in
  let token := encrypt plaintext in
  str_forall is_ascii_char action_id = true →
  str_contains "#" action_id = true →
  decrypt token = Ok plaintext →
  forallb (λ x, is_ascii_char (ascii_of_byte x)) token = true →
  str_contains "#" (string_of_list_byte token) = false →
  params rq !! "state" = Some ("#" +:+ prefix +:+ "#" +:+ string_of_list_byte token) →
  params rq !! "code" = Some code → code ≠ "" →
  is_auth_response rq w = (Raise ValueError, log_event (EvDecrypt token) w).
Proof.
  intros plaintext token Haction Hhash Hdecrypt Htoken Hclean Hstate Hcode Hne.
  unfold is_auth_response. rewrite Hcode, Hstate. cbn [default from_option truthy id].
  assert (String.eqb code "" = false) as -> by (by apply String.eqb_neq).
  cbn [negb andb]. rewrite !append_char. rewrite prefix_char.
  change (String "#" (prefix +:+ String "#" (string_of_list_byte token)))
    with (String "#" prefix +:+ String "#" (string_of_list_byte token)).
  rewrite (rsplit1_last "#" _ _ Hclean). run. unfold try_except. run.
  destruct (encode_decode_ascii token Htoken) as [_ ->]. run. unfold emit. run.
  rewrite Hdecrypt. run. unfold plaintext.
  rewrite (decode_encode_ascii _ (packed_state_ascii session_id state_id _ Haction)). run.
  assert (Hlen : (4 ≤ List.length (split "#" (packed_state session_id state_id action_id)))%nat).
  { rewrite length_split. unfold packed_state. rewrite !append_char, !count_char_app.
    cbn [count_char]. rewrite count_char_app. cbn [count_char].
    rewrite str_contains_count in Hhash. apply negb_true_iff, Nat.eqb_neq in Hhash.
    change (Ascii.eqb "#" "#") with true. cbv iota. lia. }
  destruct (split "#" (packed_state session_id state_id action_id))
    as [| a [| b [| c [| d l]]]]; cbn [Datatypes.length] in Hlen; try lia.
  reflexivity.
Qed.
End state_fields.

Lemma is_auth_response_hash_in_action_witness :
  is_auth_response (H := Demo.host)
    (Demo.callback "abc"
       ("#oidc#" +:+ string_of_list_byte (Demo.hex (list_byte_of_string (packed_state 7 3 "a#b")))))
    Demo.idle
  = (Raise ValueError,
     log_event (EvDecrypt (Demo.hex (list_byte_of_string (packed_state 7 3 "a#b")))) Demo.idle).
Proof.
  apply (is_auth_response_hash_in_action (H := Demo.host) _ _ "abc" "oidc" 7 3 "a#b");
    first [discriminate | vm_compute; reflexivity].
Defined.

(** ** The scopes of the authorization request *)

Lemma split_join (sep : ascii) (l : list string) :
  l ≠ [] → Forall (λ x, str_contains sep x = false) l →
  split sep (join (String sep "") l) = l.
Proof.
  intros Hne Hall. induction Hall as [| x l Hx Hall IH]; [done |].
  destruct l as [| y l]; [by apply split_plain |].
  change (join (String sep "") (x :: y :: l))
    with (x +:+ String sep "" +:+ join (String sep "") (y :: l)).
  rewrite append_char, split_app, (split_plain sep x Hx), IH by done. reflexivity.
Qed.

Section scopes.
Context `{Host}.

(** X8.  The [scope] parameter of the authorization request is made of
    ["openid"] and the scopes asked for, each once whatever the repetitions,
    separated by spaces. *)
Theorem create_auth_request_scope (w : world) (session_id state_id : Z) (action_id : string)
    (redirect_url url : pyval) (scopes : list string) (extra : pydict) :
  let token := encrypt (list_byte_of_string (packed_state session_id state_id action_id)) in
  str_forall is_ascii_char action_id = true →
  forallb (λ x, is_ascii_char (ascii_of_byte x)) token = true →
  endpoints (self w) !! "authorization_endpoint" = Some url →
  extra !! "scope" = None →
  Forall (λ x, str_contains " " x = false) scopes →
  ∃ (query : pydict) (scope : string),
    create_auth_request session_id state_id (VStr action_id) redirect_url scopes extra w
    = (Ok (VStr "GET", url, VDict query, VDict ∅), w)
    ∧ query !! "scope" = Some (VStr scope)
    ∧ NoDup (split " " scope)
    ∧ ∀ x, x ∈ split " " scope ↔ x = "openid" ∨ x ∈ scopes.
Proof.
  intros token Haction Htoken Hurl Hextra Hscopes.
  unfold create_auth_request. run. rewrite py_or_str.
  unfold encode_ascii. rewrite Haction. run.
  rewrite packed_state_bytes. fold token.
  destruct (encode_decode_ascii token Htoken) as [-> _]. run.
  unfold dict_item. rewrite Hurl. run.
  set (wanted := ({[ "openid" ]} ∪ list_to_set scopes : gset string)).
  assert (Hin : ∀ x, x ∈ elements wanted ↔ x = "openid" ∨ x ∈ scopes).
  { intros x. rewrite elem_of_elements. unfold wanted.
    by rewrite elem_of_union, elem_of_singleton, elem_of_list_to_set. }
  assert (Hsplit : split " " (join " " (elements wanted)) = elements wanted).
  { apply split_join.
    - intros Hnil. assert (Hopenid : "openid" ∈ elements wanted) by (apply Hin; by left).
      rewrite Hnil in Hopenid. by apply elem_of_nil in Hopenid.
    - apply Forall_forall. intros x [-> | Hx]%Hin; [reflexivity |].
      by apply (proj1 (Forall_forall _ _) Hscopes). }
  eexists _, _. split; [reflexivity |]. split.
  - rewrite lookup_union_r by exact Hextra.
    rewrite !lookup_insert_ne by discriminate. apply lookup_insert_eq.
  - rewrite Hsplit. split; [apply NoDup_elements | exact Hin].
Qed.
End scopes.

Lemma create_auth_request_scope_witness :
  ∃ (query : pydict) (scope : string),
    create_auth_request (H := Demo.host) 7 3 (VStr "") (VStr "https://app.example/")
      ["email"; "openid"; "email"] ∅ Demo.idle
    = (Ok (VStr "GET", VStr "https://idp.example/authorize", VDict query, VDict ∅), Demo.idle)
    ∧ query !! "scope" = Some (VStr scope)
    ∧ NoDup (split " " scope)
    ∧ ∀ x, x ∈ split " " scope ↔ x = "openid" ∨ x ∈ ["email"; "openid"; "email"].
Proof.
  apply (create_auth_request_scope (H := Demo.host) Demo.idle 7 3 "" (VStr "https://app.example/")
           (VStr "https://idp.example/authorize") ["email"; "openid"; "email"] ∅);
    first [vm_compute; reflexivity | repeat constructor].
Defined.

(** ** A session that holds credentials *)

Lemma filter_credentials_idemp (credentials : pydict) (to_keep : gset string) :
  filter_credentials (filter_credentials credentials to_keep) to_keep
  = filter_credentials credentials to_keep.
Proof.
  apply map_eq. intros k. rewrite !filter_credentials_lookup.
  by destruct (decide (k ∈ to_keep)).
Qed.

Section logged_in.
Context `{Host}.

(** X9.  Once [store_credentials] has written the credentials of a subject
    into the session, a later request without code is answered from the
    session alone: the principal is that subject, the credentials are the
    [sub] entry, no redirect is built, nothing is sent or logged, and the
    session is left as it was. *)
Theorem get_principal_from_session (rq : request) (w : world) (d credentials : pydict)
    (subject : pyval) (session_id state_id : Z) :
  cookie (self w) = false →
  params rq !! "code" = None →
  credentials !! "sub" = Some subject →
  truthy subject = true →
  let kept := filter_credentials credentials {[ "sub" ]} in
  let session := Some (<["nagare.credentials" := VDict kept]> d) in
  get_principal rq session session_id state_id w
  = (Ok {| principal := subject; credentials_out := kept; new_response := None;
           session_out := session; request_out := rq |}, w).
Proof.
  intros Hcookie Hcode Hsub Hsubject kept session.
  assert (Hkept : dict_get kept "sub" = subject).
  { unfold kept. rewrite filter_credentials_sub. unfold dict_get. by rewrite Hsub. }
  assert (Htruthy : truthy (VDict kept) = true).
  { cbn [truthy]. apply negb_true_iff, bool_decide_eq_false. rewrite map_size_empty_iff.
    intros Hempty. unfold dict_get in Hkept. rewrite Hempty, lookup_empty in Hkept.
    cbn in Hkept. by rewrite <- Hkept in Hsubject. }
  assert (Hauth : is_auth_response rq w = (Ok (VNone, 0, 0, ""), w))
    by (unfold is_auth_response; by rewrite Hcode).
  assert (Hempty : truthy (VDict (∅ : pydict)) = false) by reflexivity.
  unfold get_principal. run. rewrite Hauth. change (truthy VNone) with false. run.
  rewrite Hempty. cbn [negb]. run.
  unfold session. rewrite (retrieve_credentials_run w d kept Hcookie). run.
  rewrite Hkept, Hsubject. cbn [negb]. run. rewrite Htruthy. run.
  rewrite store_credentials_run by (done || apply truthy_insert). run.
  rewrite Hkept. unfold kept. by rewrite filter_credentials_idemp, insert_insert_eq.
Qed.
End logged_in.

Lemma get_principal_from_session_witness :
  let credentials : pydict := <["sub" := VStr "u1"]> {[ "access_token" := VStr "t" ]} in
  let kept := filter_credentials credentials {[ "sub" ]} in
  let session := Some (<["nagare.credentials" := VDict kept]> ({[ "visits" := VInt 1 ]} : pydict)) in
  get_principal (H := Demo.host) (Scenes.visit "page=2") session 7 3 Demo.idle
  = (Ok {| principal := VStr "u1"; credentials_out := kept; new_response := None;
           session_out := session; request_out := Scenes.visit "page=2" |},
     Demo.idle).
Proof.
  apply (get_principal_from_session (H := Demo.host) (Scenes.visit "page=2")
           Demo.idle {[ "visits" := VInt 1 ]}
           (<["sub" := VStr "u1"]> {[ "access_token" := VStr "t" ]}) (VStr "u1") 7 3);
    vm_compute; reflexivity.
Defined.

(** ** The code exchange: the other outcomes *)

Section exchange.
Context `{Host}.

(** X10.  A token endpoint that answers the code exchange with a status that
    is neither 200 nor an error status (204, 304, ...) gives no credentials:
    ["Authentication error"] is logged and the empty set returned, without
    exception. *)
Theorem request_credentials_other_status (rq : request) (code : pyval) (action_id : string)
    (w : world) (url : pyval) (r : http_response) :
  endpoints (self w) !! "token_endpoint" = Some url →
  requests_request (token_request (self w) url (redirect_url rq) code) = Ok r →
  ¬ (400 ≤ status_code r < 600) →
  status_code r ≠ 200 →
  request_credentials rq code action_id w
  = (Ok (∅, rq),
     log_event (EvError MsgAuthenticationError)
       (log_event (EvRequest (token_request (self w) url (redirect_url rq) code)) w)).
Proof.
  intros Hurl Hresponse Hstatus Hother.
  unfold request_credentials, create_token_request. run.
  unfold dict_item at 1. rewrite Hurl. run.
  rewrite send_request_run. rewrite py_or_empty, py_or_insert.
  unfold token_request in Hresponse. rewrite Hresponse.
  rewrite (raise_for_status_other r Hstatus).
  assert ((status_code r =? 400) = false) as -> by (apply Z.eqb_neq; lia).
  assert ((status_code r =? 200) = false) as -> by (by apply Z.eqb_neq).
  cbn [negb]. unfold emit. by run.
Qed.

(** X11.  When the ID token of a 200 answer is refused by [jose] with a
    [JOSEError] (its header cannot be read, or [jwt.decode] raises), what
    happens depends on the first argument of the exception.  A [str]: the
    error is logged with it and the empty set of credentials returned, so the
    exception does not leave [request_credentials].  Anything else, as the
    [JWSError] that [jwt.decode] wraps for a bad signature: building the
    message raises [TypeError] inside the handler, nothing is logged and the
    [TypeError] leaves the method.  No argument at all: [IndexError], in the
    same way.  In no case is the request rewritten. *)
Theorem request_credentials_invalid_id_token (rq : request) (code : pyval)
    (action_id : string) (w : world) (url : pyval) (r : http_response) (tokens : pydict)
    (id_token : pyval) (args : list exn_arg) :
  endpoints (self w) !! "token_endpoint" = Some url →
  requests_request (token_request (self w) url (redirect_url rq) code) = Ok r →
  status_code r = 200 →
  json_body r = Ok (VDict tokens) →
  tokens !! "id_token" = Some id_token →
  (jws_get_unverified_header id_token = Raise (JOSEError args)
   ∨ ∃ header key,
       jws_get_unverified_header id_token = Ok header
       ∧ select_key (signing_keys (self w)) (dict_get header "kid") = Ok key
       ∧ decode_id_token (self w) tokens id_token key = Raise (JOSEError args)) →
  let sent := log_event (EvRequest (token_request (self w) url (redirect_url rq) code)) w in
  request_credentials rq code action_id w
  = match args with
    | [] => (Raise IndexError, sent)
    | ArgValue (VStr message) :: _ =>
        (Ok (∅, rq), log_event (EvError (MsgInvalidIdToken message)) sent)
    | _ :: _ => (Raise TypeError, sent)
    end.
Proof.
  intros Hurl Hresponse Hstatus Hbody Hid Hrefused sent. subst sent.
  unfold request_credentials, create_token_request. run.
  unfold dict_item at 1. rewrite Hurl. run.
  rewrite send_request_run. rewrite py_or_empty, py_or_insert.
  unfold token_request in Hresponse. rewrite Hresponse.
  unfold raise_for_status. rewrite Hstatus. cbn [Z.leb Z.ltb Z.compare Pos.compare
    Pos.compare_cont andb]. cbn match. run. rewrite Hstatus.
  change (200 =? 400) with false. change (200 =? 200) with true. cbn [negb]. cbn match.
  rewrite Hbody. run. cbn [subscript]. unfold dict_item at 1. rewrite Hid. run.
  cbn [get_method]. run. unfold try_except. run.
  destruct Hrefused as [Hheader | (header & key & Hheader & Hkey & Hdecode)].
  - rewrite Hheader. run. unfold emit.
    destruct args as [| [[| | | message | |] |] args]; cbn [invalid_id_token_detail]; by run.
  - rewrite Hheader. run. rewrite Hkey. run. rewrite Hdecode. run. unfold emit.
    destruct args as [| [[| | | message | |] |] args]; cbn [invalid_id_token_detail]; by run.
Qed.

(** X12.  When the ID token is verified but the answer of the token endpoint
    has no [access_token], [request_credentials] raises [KeyError]: the
    [except] clause is for [JOSEError] only. *)
Theorem request_credentials_without_access_token (rq : request) (code : pyval)
    (action_id : string) (w : world) (url : pyval) (r : http_response) (tokens : pydict)
    (id_token : pyval) (header : pydict) (key : jwt_key) (claims : pydict) :
  endpoints (self w) !! "token_endpoint" = Some url →
  requests_request (token_request (self w) url (redirect_url rq) code) = Ok r →
  status_code r = 200 →
  json_body r = Ok (VDict tokens) →
  tokens !! "id_token" = Some id_token →
  jws_get_unverified_header id_token = Ok header →
  select_key (signing_keys (self w)) (dict_get header "kid") = Ok key →
  decode_id_token (self w) tokens id_token key = Ok claims →
  tokens !! "access_token" = None →
  request_credentials rq code action_id w
  = (Raise (KeyError "access_token"),
     log_event (EvRequest (token_request (self w) url (redirect_url rq) code)) w).
Proof.
  intros Hurl Hresponse Hstatus Hbody Hid Hheader Hkey Hclaims Haccess.
  unfold request_credentials, create_token_request. run.
  unfold dict_item at 1. rewrite Hurl. run.
  rewrite send_request_run. rewrite py_or_empty, py_or_insert.
  unfold token_request in Hresponse. rewrite Hresponse.
  unfold raise_for_status. rewrite Hstatus. cbn [Z.leb Z.ltb Z.compare Pos.compare
    Pos.compare_cont andb]. cbn match. run. rewrite Hstatus.
  change (200 =? 400) with false. change (200 =? 200) with true. cbn [negb]. cbn match.
  rewrite Hbody. run. cbn [subscript]. unfold dict_item at 1. rewrite Hid. run.
  cbn [get_method]. run. unfold try_except. run.
  rewrite Hheader. run. rewrite Hkey. run. rewrite Hclaims. run.
  unfold dict_item. rewrite Haccess. by run.
Qed.
End exchange.

Lemma request_credentials_other_status_witness :
  let host := Scenes.host (Ok (Scenes.answer 204 VNone)) (Ok ∅) (Ok ∅) in
  let sent := token_request (self Demo.idle) (VStr "https://idp.example/token")
                (VStr "https://app.example/") (VStr "good") in
  request_credentials (H := host) (Demo.callback "good" "") (VStr "good") "" Demo.idle
  = (Ok (∅, Demo.callback "good" ""),
     log_event (EvError MsgAuthenticationError) (log_event (EvRequest sent) Demo.idle)).
Proof.
  apply (request_credentials_other_status
           (H := Scenes.host (Ok (Scenes.answer 204 VNone)) (Ok ∅) (Ok ∅))
           (Demo.callback "good" "") (VStr "good") "" Demo.idle
           (VStr "https://idp.example/token") (Scenes.answer 204 VNone)).
  - vm_compute. reflexivity.
  - reflexivity.
  - simpl. lia.
  - discriminate.
Defined.

Lemma request_credentials_invalid_id_token_witness :
  let expired := JOSEError [ArgValue (VStr "Signature has expired.")] in
  let forged := JOSEError [ArgException "JWSError('Signature verification failed.')"] in
  let host e := Scenes.host (Ok Demo.granted) (Ok {[ "alg" := VStr "RS256" ]}) (Raise e) in
  let sent := log_event (EvRequest (token_request (self Demo.idle)
                                      (VStr "https://idp.example/token")
                                      (VStr "https://app.example/") (VStr "good")))
                Demo.idle in
  request_credentials (H := host expired) (Demo.callback "good" "") (VStr "good") "" Demo.idle
  = (Ok (∅, Demo.callback "good" ""),
     log_event (EvError (MsgInvalidIdToken "Signature has expired.")) sent)
  ∧ request_credentials (H := host forged) (Demo.callback "good" "") (VStr "good") ""
      Demo.idle
    = (Raise TypeError, sent).
Proof.
  split.
  - apply (request_credentials_invalid_id_token
             (H := Scenes.host (Ok Demo.granted) (Ok {[ "alg" := VStr "RS256" ]})
                     (Raise (JOSEError [ArgValue (VStr "Signature has expired.")])))
             (Demo.callback "good" "") (VStr "good") "" Demo.idle
             (VStr "https://idp.example/token") Demo.granted Demo.tokens
             (VStr "header.payload.signature")
             [ArgValue (VStr "Signature has expired.")]);
      try (vm_compute; reflexivity).
    right. exists {[ "alg" := VStr "RS256" ]}, (KeyTable (signing_keys (self Demo.idle))).
    repeat split; vm_compute; reflexivity.
  - apply (request_credentials_invalid_id_token
             (H := Scenes.host (Ok Demo.granted) (Ok {[ "alg" := VStr "RS256" ]})
                     (Raise (JOSEError
                               [ArgException "JWSError('Signature verification failed.')"])))
             (Demo.callback "good" "") (VStr "good") "" Demo.idle
             (VStr "https://idp.example/token") Demo.granted Demo.tokens
             (VStr "header.payload.signature")
             [ArgException "JWSError('Signature verification failed.')"]);
      try (vm_compute; reflexivity).
    right. exists {[ "alg" := VStr "RS256" ]}, (KeyTable (signing_keys (self Demo.idle))).
    repeat split; vm_compute; reflexivity.
Defined.

Lemma request_credentials_without_access_token_witness :
  let answer := Scenes.answer 200 (VDict {[ "id_token" := VStr "header.payload.signature" ]}) in
  let host := Scenes.host (Ok answer) (Ok ∅) (Ok Demo.id_token_claims) in
  let sent := token_request (self Demo.idle) (VStr "https://idp.example/token")
                (VStr "https://app.example/") (VStr "good") in
  request_credentials (H := host) (Demo.callback "good" "") (VStr "good") "" Demo.idle
  = (Raise (KeyError "access_token"), log_event (EvRequest sent) Demo.idle).
Proof.
  apply (request_credentials_without_access_token
           (H := Scenes.host
                   (Ok (Scenes.answer 200 (VDict {[ "id_token" := VStr "header.payload.signature" ]})))
                   (Ok ∅) (Ok Demo.id_token_claims))
           (Demo.callback "good" "") (VStr "good") "" Demo.idle
           (VStr "https://idp.example/token")
           (Scenes.answer 200 (VDict {[ "id_token" := VStr "header.payload.signature" ]}))
           {[ "id_token" := VStr "header.payload.signature" ]}
           (VStr "header.payload.signature") ∅ (KeyTable (signing_keys (self Demo.idle)))
           Demo.id_token_claims);
    vm_compute; reflexivity.
Defined.

(** ** The user-info and end-session exchanges *)

Section other_exchanges.
Context `{Host}.

(** X13.  [user_info] sends nothing and answers the empty dict when no
    user-info endpoint is set; when one is set and the provider does not
    answer with an error status, it answers the decoded body for status 200
    and the empty dict for every other status. *)
Theorem user_info_outcomes (access_token : pyval) (w : world) :
  let url := dict_get (endpoints (self w)) "userinfo_endpoint" in
  (truthy url = false → user_info access_token w = (Ok (VDict ∅), w))
  ∧ ∀ r, truthy url = true →
      requests_request (userinfo_request url access_token) = Ok r →
      ¬ (400 ≤ status_code r < 600) →
      user_info access_token w
      = (if status_code r =? 200 then json_body r else Ok (VDict ∅),
         log_event (EvRequest (userinfo_request url access_token)) w).
Proof.
  intros url. unfold user_info, create_userinfo_request. run. fold url. split.
  - intros ->. reflexivity.
  - intros r -> Hr Hstatus. cbn [negb]. run.
    rewrite send_request_run, py_or_empty, py_or_insert.
    unfold userinfo_request in Hr. rewrite Hr, (raise_for_status_other r Hstatus).
    destruct (status_code r =? 200); run; [| reflexivity].
    by destruct (json_body r).
Qed.

(** X14.  [logout] without access token sends nothing and answers what the
    base class answered.  With an access token and an end-session endpoint,
    and a provider that does not answer with an error status, the answer is
    true exactly when the base class's is true and the provider's status is
    204. *)
Theorem logout_status (location delete_session user access_token : pyval) (w : world)
    (status : pyval) :
  base_logout location delete_session user = Ok status →
  logout location delete_session user VNone w = (Ok status, w)
  ∧ ∀ url r, access_token ≠ VNone →
      endpoints (self w) !! "end_session_endpoint" = Some url →
      truthy url = true →
      requests_request (end_session_request (self w) url access_token) = Ok r →
      ¬ (400 ≤ status_code r < 600) →
      ∃ answer,
        logout location delete_session user access_token w
        = (Ok answer, log_event (EvRequest (end_session_request (self w) url access_token)) w)
        ∧ truthy answer = truthy status && (status_code r =? 204).
Proof.
  intros Hbase. unfold logout. run. rewrite Hbase. run. split; [reflexivity |].
  intros url r Htoken Hurl Htruthy Hr Hstatus.
  exists (if truthy status then VBool (status_code r =? 204) else status).
  split; [| by destruct (truthy status) eqn:Hs; cbn [truthy andb]; rewrite ?Hs].
  unfold end_session_request in Hr.
  destruct access_token; [done | ..];
    unfold create_end_session_request; run; unfold dict_item; rewrite Hurl; run;
    rewrite Htruthy; run;
    rewrite send_request_run, py_or_empty, py_or_insert;
    rewrite Hr, (raise_for_status_other r Hstatus); reflexivity.
Qed.
End other_exchanges.

Lemma user_info_outcomes_witness :
  let host := Scenes.host (Ok (Scenes.answer 200 (VDict {[ "name" := VStr "Ada" ]})))
                (Ok ∅) (Ok ∅) in
  user_info (H := host) (VStr "at") Demo.idle
  = (Ok (VDict {[ "name" := VStr "Ada" ]}),
     log_event (EvRequest (userinfo_request (VStr "https://idp.example/userinfo") (VStr "at")))
       Demo.idle).
Proof.
  apply (proj2 (user_info_outcomes
                  (H := Scenes.host
                          (Ok (Scenes.answer 200 (VDict {[ "name" := VStr "Ada" ]})))
                          (Ok ∅) (Ok ∅))
                  (VStr "at") Demo.idle)
           (Scenes.answer 200 (VDict {[ "name" := VStr "Ada" ]}))).
  - vm_compute. reflexivity.
  - reflexivity.
  - simpl. lia.
Defined.

Lemma logout_status_witness :
  let host := Scenes.host (Ok (Scenes.answer 204 VNone)) (Ok ∅) (Ok ∅) in
  let sent := end_session_request (self Scenes.signed_in)
                (VStr "https://idp.example/logout") (VStr "rt") in
  ∃ answer,
    logout (H := host) (VStr "") (VBool true) VNone (VStr "rt") Scenes.signed_in
    = (Ok answer, log_event (EvRequest sent) Scenes.signed_in)
    ∧ truthy answer = true.
Proof.
  apply (proj2 (logout_status
                  (H := Scenes.host (Ok (Scenes.answer 204 VNone)) (Ok ∅) (Ok ∅))
                  (VStr "") (VBool true) VNone (VStr "rt") Scenes.signed_in
                  (VBool true) eq_refl)
           (VStr "https://idp.example/logout") (Scenes.answer 204 VNone)).
  - discriminate.
  - vm_compute. reflexivity.
  - reflexivity.
  - reflexivity.
  - simpl. lia.
Defined.

(** ** Credentials in a cookie *)

Lemma filter_credentials_only_sub (credentials : pydict) :
  filter_credentials credentials {[ "sub" ]}
  = match credentials !! "sub" with
    | Some principal => {[ "sub" := principal ]}
    | None => ∅
    end.
Proof.
  apply map_eq. intros k. rewrite filter_credentials_lookup.
  destruct (decide (k ∈ ({[ "sub" ]} : gset string))) as [Hin | Hout].
  - apply elem_of_singleton in Hin. subst k.
    destruct (credentials !! "sub") as [v |] eqn:Hsub; [| done].
    symmetry. apply lookup_singleton_eq.
  - assert (k ≠ "sub") as Hne by (intros ->; apply Hout; by apply elem_of_singleton).
    destruct (credentials !! "sub"); [| done].
    symmetry. by apply lookup_singleton_ne.
Qed.

Section cookie_properties.
Context `{CookieHost}.

(** X15.  Of the credentials given to [to_cookie] only the ["sub"] entry
    reaches the cookie: the base class is given the subject and no other
    credentials, [jwt.encode] is given the subject alone.  Without a subject
    the encrypted variant raises [KeyError], the signed one signs an empty
    claim set. *)
Theorem to_cookie_only_sub (credentials : pydict) :
  to_cookie credentials
  = match credentials !! "sub" with
    | Some principal =>
        if encrypted then sealed ← base_to_cookie principal ∅; Ok (CookieSealed sealed)
        else token ← jwt_encode {[ "sub" := principal ]}; Ok (CookieToken token)
    | None =>
        if encrypted then Raise (KeyError "sub")
        else token ← jwt_encode ∅; Ok (CookieToken token)
    end.
Proof.
  unfold to_cookie. rewrite filter_credentials_only_sub.
  destruct (credentials !! "sub") as [principal |]; destruct encrypted; reflexivity.
Qed.

(** X16.  Whatever [from_cookie] returns, the principal is the ["sub"] entry
    of the credentials returned with it, and for a signed cookie it is their
    only entry. *)
Theorem from_cookie_principal (cookie : bytes) (max_age principal : pyval)
    (credentials : pydict) :
  from_cookie cookie max_age = Ok (principal, credentials) →
  credentials !! "sub" = Some principal
  ∧ (encrypted = false → credentials = {[ "sub" := principal ]}).
Proof.
  unfold from_cookie. destruct encrypted.
  - destruct (base_from_cookie cookie max_age) as [[p c] | e]; [| done].
    cbn [mbind result_bind]. unfold dict_item. rewrite lookup_insert_eq.
    intros [= <- <-]. split; [apply lookup_insert_eq | done].
  - destruct (decode_ascii cookie) as [token | e]; [| done]. cbn [mbind result_bind].
    destruct (jwt_decode_cookie token) as [c | e]; [| done]. cbn [mbind result_bind].
    rewrite filter_credentials_only_sub. unfold dict_item.
    destruct (c !! "sub") as [p |].
    + rewrite lookup_singleton_eq. intros [= <- <-].
      split; [apply lookup_singleton_eq | done].
    + rewrite lookup_empty. done.
Qed.

(** X17.  A signed cookie read back: when [jwt.encode] makes an ASCII token
    of the subject and [jwt.decode] finds the subject in that token,
    [from_cookie] on the token's bytes returns the subject that was given to
    [to_cookie], alone. *)
Theorem signed_cookie_round_trip (credentials claims : pydict) (principal max_age : pyval)
    (token : string) :
  encrypted = false →
  credentials !! "sub" = Some principal →
  jwt_encode {[ "sub" := principal ]} = Ok token →
  str_forall is_ascii_char token = true →
  jwt_decode_cookie token = Ok claims →
  claims !! "sub" = Some principal →
  to_cookie credentials = Ok (CookieToken token)
  ∧ (cookie ← encode_ascii token; from_cookie cookie max_age)
    = Ok (principal, {[ "sub" := principal ]}).
Proof.
  intros Hplain Hsub Hencode Hascii Hdecode Hclaims. split.
  - unfold to_cookie. rewrite Hplain, filter_credentials_only_sub, Hsub, Hencode. done.
  - unfold encode_ascii, from_cookie. rewrite Hascii, Hplain. cbn [mbind result_bind].
    rewrite (decode_encode_ascii token Hascii). cbn [mbind result_bind].
    rewrite Hdecode. cbn [mbind result_bind].
    rewrite filter_credentials_only_sub, Hclaims. unfold dict_item.
    by rewrite lookup_singleton_eq.
Qed.
End cookie_properties.

Lemma from_cookie_principal_witness :
  from_cookie (H := Scenes.sealed_cookies) (list_byte_of_string "ada") VNone
  = Ok (VStr "ada", {[ "sub" := VStr "ada" ]})
  ∧ ({[ "sub" := VStr "ada" ]} : pydict) !! "sub" = Some (VStr "ada").
Proof.
  assert (Hrun : from_cookie (H := Scenes.sealed_cookies) (list_byte_of_string "ada") VNone
                 = Ok (VStr "ada", {[ "sub" := VStr "ada" ]}))
    by (vm_compute; reflexivity).
  split; [exact Hrun |].
  exact (proj1 (from_cookie_principal (H := Scenes.sealed_cookies) _ _ _ _ Hrun)).
Defined.

Lemma signed_cookie_round_trip_witness :
  let credentials : pydict := <["sub" := VStr "ada"]> {[ "name" := VStr "Ada" ]} in
  to_cookie (H := Scenes.plain_cookies) credentials = Ok (CookieToken "sub=ada")
  ∧ (cookie ← encode_ascii "sub=ada"; from_cookie (H := Scenes.plain_cookies) cookie VNone)
    = Ok (VStr "ada", {[ "sub" := VStr "ada" ]}).
Proof.
  apply (signed_cookie_round_trip (H := Scenes.plain_cookies)
           (<["sub" := VStr "ada"]> {[ "name" := VStr "Ada" ]})
           {[ "sub" := VStr "ada" ]} (VStr "ada") VNone "sub=ada").
  - reflexivity.
  - apply lookup_insert_eq.
  - vm_compute. reflexivity.
  - reflexivity.
  - reflexivity.
  - apply lookup_singleton_eq.
Defined.

(** ** Start-up: the keys and the required endpoints *)

Section start_up.
Context `{Host}.

Lemma fetch_keys_trace_extends (w : world) :
  ∃ t, trace (fetch_keys w).2 = (trace w ++ t)%list.
Proof.
  unfold fetch_keys, fetch_keys_stale, fetch_keys_refresh. run.
  unfold emit, modify_self, time_now.
  run_cases; rewrite ?send_request_run; run_cases;
    cbn [trace log_event]; rewrite <- ?app_assoc;
    first [by eexists | by exists []; rewrite app_nil_r].
Qed.

(** What [handle_start] does from line 288 on, once both required endpoints
    are looked up. *)
Lemma handle_start_keys_run (w : world) (a t : pyval) :
  endpoints (self w) !! "authorization_endpoint" = Some a →
  endpoints (self w) !! "token_endpoint" = Some t →
  let marked := {| self := set_jwks_expiration (Some (time_time (clock w) - 1)) (self w);
                   trace := trace w; clock := S (clock w) |} in
  let names := ((if truthy a then [] else ["authorization_endpoint"])
                ++ (if truthy t then [] else ["token_endpoint"]))%list in
  handle_start_keys w
  = fetch_keys (match names with
                | [] => marked
                | _ => log_event (EvError (MsgMissingEndpoints names)) marked
                end).
Proof.
  intros Ha Ht marked names. unfold handle_start_keys, time_now, modify_self. run.
  cbn [self set_jwks_expiration endpoints]. unfold REQUIRED_ENDPOINTS. cbn [mapM].
  unfold dict_item. rewrite Ha, Ht. cbn [mbind result_bind]. run.
  subst names. cbn [List.filter snd fst].
  destruct (truthy a), (truthy t); cbn [negb fmap list_fmap fst app]; unfold emit; run;
    reflexivity.
Qed.

Lemma handle_start_without_discovery (w : world) (url : pyval) :
  endpoints (self w) !! "discovery_endpoint" = Some url →
  truthy url = false →
  handle_start w = handle_start_keys (log_event (EvRegister (ident (self w))) w).
Proof.
  intros Hurl Hfalsy.
  unfold handle_start, handle_start_discovery, create_discovery_request, emit. run.
  cbn [self log_event]. unfold dict_item. rewrite Hurl. run.
  destruct url; run; try rewrite Hfalsy; by run.
Qed.

(** X18.  Start-up without discovery endpoint: what expiration was stored
    does not matter.  With both required endpoints in the table and a clock
    that does not read exactly one second and does not run backwards by a
    second, [handle_start] sends one request, for the keys, when a JWKS URL
    is set and none otherwise; issuer, endpoints and JWKS URL stay as
    configured. *)
Theorem start_up_fetches_keys (w : world) (url a t : pyval) :
  endpoints (self w) !! "discovery_endpoint" = Some url →
  truthy url = false →
  endpoints (self w) !! "authorization_endpoint" = Some a →
  endpoints (self w) !! "token_endpoint" = Some t →
  time_time (clock w) ≠ 1 →
  time_time (clock w) - 1 < time_time (S (clock w)) →
  fetches (trace (handle_start w).2)
  = (fetches (trace w) + (if truthy (jwks_uri (self w)) then 1 else 0))%nat
  ∧ same_config (self (handle_start w).2) (self w).
Proof.
  intros Hurl Hfalsy Ha Ht Hone Hclock.
  rewrite (handle_start_without_discovery w url Hurl Hfalsy).
  split; [| exact (handle_start_keys_config (log_event (EvRegister (ident (self w))) w))].
  rewrite (handle_start_keys_run (log_event (EvRegister (ident (self w))) w) a t Ha Ht).
  rewrite fetch_keys_fetches.
  assert (Hzero : (time_time (clock w) - 1 =? 0) = false) by (apply Z.eqb_neq; lia).
  assert (Hlt : (time_time (clock w) - 1 <? time_time (S (clock w))) = true)
    by (apply Z.ltb_lt; lia).
  destruct (truthy a), (truthy t); cbn [app]; unfold stale_now;
    cbn [self trace clock log_event set_jwks_expiration jwks_uri jwks_expiration];
    rewrite Hzero, Hlt, ?fetches_snoc; cbn [is_request negb andb];
    destruct (truthy (jwks_uri (self w))); cbn [andb]; lia.
Qed.

(** X19.  When a required endpoint has no value, [handle_start] logs one
    error that names exactly the required endpoints without value, and goes
    on to [fetch_keys]: the message is still in the trace afterwards. *)
Theorem start_up_reports_missing_endpoints (w : world) (a t : pyval) :
  endpoints (self w) !! "authorization_endpoint" = Some a →
  endpoints (self w) !! "token_endpoint" = Some t →
  truthy a && truthy t = false →
  ∃ names,
    EvError (MsgMissingEndpoints names) ∈ trace (handle_start_keys w).2
    ∧ ∀ endpoint, endpoint ∈ names
        ↔ (endpoint = "authorization_endpoint" ∧ truthy a = false)
          ∨ (endpoint = "token_endpoint" ∧ truthy t = false).
Proof.
  intros Ha Ht Hmissing. rewrite (handle_start_keys_run w a t Ha Ht).
  exists ((if truthy a then [] else ["authorization_endpoint"])
          ++ (if truthy t then [] else ["token_endpoint"]))%list.
  split.
  - match goal with |- _ ∈ trace (fetch_keys ?w0).2 =>
      destruct (fetch_keys_trace_extends w0) as [rest ->];
      assert (Hin : EvError (MsgMissingEndpoints
                ((if truthy a then [] else ["authorization_endpoint"])
                 ++ (if truthy t then [] else ["token_endpoint"]))%list) ∈ trace w0)
    end.
    { destruct (truthy a), (truthy t); try discriminate Hmissing; cbn [app trace log_event];
        apply elem_of_app; right; apply list_elem_of_here. }
    apply elem_of_app. by left.
  - intros endpoint. rewrite elem_of_app.
    destruct (truthy a), (truthy t); rewrite ?elem_of_nil, ?list_elem_of_singleton;
      intuition congruence.
Qed.
End start_up.

Lemma start_up_fetches_keys_witness :
  let host := Scenes.host (Ok (Scenes.answer 200 (VDict ∅))) (Ok ∅) (Ok ∅) in
  let w := Scenes.standalone (VStr "https://idp.example/jwks")
             (VStr "https://idp.example/token") in
  fetches (trace (handle_start (H := host) w).2) = 1%nat
  ∧ same_config (self (handle_start (H := host) w).2) (self w).
Proof.
  apply (start_up_fetches_keys
           (H := Scenes.host (Ok (Scenes.answer 200 (VDict ∅))) (Ok ∅) (Ok ∅))
           (Scenes.standalone (VStr "https://idp.example/jwks")
              (VStr "https://idp.example/token"))
           VNone (VStr "https://idp.example/authorize") (VStr "https://idp.example/token")).
  - vm_compute. reflexivity.
  - reflexivity.
  - vm_compute. reflexivity.
  - vm_compute. reflexivity.
  - vm_compute. discriminate.
  - vm_compute. reflexivity.
Defined.

Lemma start_up_reports_missing_endpoints_witness :
  let host := Scenes.host (Ok (Scenes.answer 200 (VDict ∅))) (Ok ∅) (Ok ∅) in
  let w := Scenes.standalone VNone (VStr "") in
  ∃ names,
    EvError (MsgMissingEndpoints names) ∈ trace (handle_start_keys (H := host) w).2
    ∧ ∀ endpoint, endpoint ∈ names
        ↔ (endpoint = "authorization_endpoint" ∧ true = false)
          ∨ (endpoint = "token_endpoint" ∧ false = false).
Proof.
  apply (start_up_reports_missing_endpoints
           (H := Scenes.host (Ok (Scenes.answer 200 (VDict ∅))) (Ok ∅) (Ok ∅))
           (Scenes.standalone VNone (VStr ""))
           (VStr "https://idp.example/authorize") (VStr "")).
  - vm_compute. reflexivity.
  - vm_compute. reflexivity.
  - reflexivity.
Defined.

(** ** What [get_principal] returns *)

Section answers.
Context `{Host}.

(** X20.  Whenever [get_principal] returns: the principal is the ["sub"]
    entry of the credentials returned with it ([None] when there is none); a
    redirect is built only from the caller's [session_id] and [state_id],
    never from the ones packed into the [state] parameter, and only together
    with credentials; and when no credentials are found the session is left
    as it was. *)
Theorem get_principal_answer (rq : request) (session : option pydict)
    (session_id state_id : Z) (w w' : world) (res : principal_result) :
  get_principal rq session session_id state_id w = (Ok res, w') →
  principal res = dict_get (credentials_out res) "sub"
  ∧ (∀ r, new_response res = Some r →
       r = {| redirect_s := session_id; redirect_c := format_05d state_id |}
       ∧ credentials_out res ≠ ∅)
  ∧ (credentials_out res = ∅ → new_response res = None ∧ session_out res = session).
Proof.
  assert (Hsize : ∀ d : pydict, truthy (VDict d) = true → d ≠ ∅).
  { intros d Hd ->. discriminate Hd. }
  assert (Hempty : truthy (VDict (∅ : pydict)) = false) by reflexivity.
  unfold get_principal. run.
  destruct (is_auth_response rq w) as [[[[[code sid] stid] action_id] | e] w1]; [| done].
  destruct (truthy code).
  - run. destruct (request_credentials rq code action_id w1) as [[[c rq'] | e] w2]; [| done].
    destruct (truthy (VDict c)) eqn:Hc; run; rewrite Hc; cbn [negb]; run.
    + rewrite Hc. destruct (store_credentials session c w2) as [[s | e] w3]; [| done].
      run. intros [= <- <-]. cbn [principal credentials_out new_response session_out].
      split; [done |]. split.
      * intros r [= <-]. split; [done | by apply Hsize].
      * intros ->. discriminate Hc.
    + destruct (retrieve_credentials session w2) as [[[p c'] | e] w3]; [| done]. run.
      destruct (negb (truthy p)).
      * run. destruct (base_get_principal rq') as [[p'' c''] | e]; [| done]. run.
        destruct (truthy (VDict c'')) eqn:Hc''.
        -- destruct (store_credentials session c'' w3) as [[s | e] w4]; [| done].
           run. intros [= <- <-]. cbn [principal credentials_out new_response session_out].
           split; [done |]. split; [done |]. intros ->. discriminate Hc''.
        -- run. intros [= <- <-]. done.
      * run. destruct (truthy (VDict c')) eqn:Hc'.
        -- destruct (store_credentials session c' w3) as [[s | e] w4]; [| done].
           run. intros [= <- <-]. cbn [principal credentials_out new_response session_out].
           split; [done |]. split; [done |]. intros ->. discriminate Hc'.
        -- run. intros [= <- <-]. done.
  - run. rewrite Hempty. cbn [negb]. run.
    destruct (retrieve_credentials session w1) as [[[p c'] | e] w3]; [| done]. run.
    destruct (negb (truthy p)).
    + run. destruct (base_get_principal rq) as [[p'' c''] | e]; [| done]. run.
      destruct (truthy (VDict c'')) eqn:Hc''.
      * destruct (store_credentials session c'' w3) as [[s | e] w4]; [| done].
        run. intros [= <- <-]. cbn [principal credentials_out new_response session_out].
        split; [done |]. split; [done |]. intros ->. discriminate Hc''.
      * run. intros [= <- <-]. done.
    + run. destruct (truthy (VDict c')) eqn:Hc'.
      * destruct (store_credentials session c' w3) as [[s | e] w4]; [| done].
        run. intros [= <- <-]. cbn [principal credentials_out new_response session_out].
        split; [done |]. split; [done |]. intros ->. discriminate Hc'.
      * run. intros [= <- <-]. done.
Qed.
End answers.

Lemma get_principal_answer_witness :
  get_principal (H := Demo.host) (Demo.callback "good" "")
    (Some ({[ "visits" := VInt 1 ]} : pydict)) 7 3 Demo.idle
  = (Ok {| principal := VStr "u1";
           credentials_out := <["access_token" := VStr "t"]> Demo.id_token_claims;
           new_response := Some {| redirect_s := 7; redirect_c := "00003" |};
           session_out := Some (<["nagare.credentials" := VDict {[ "sub" := VStr "u1" ]}]>
                                  ({[ "visits" := VInt 1 ]} : pydict));
           request_out := Demo.callback "good" "" |},
     log_event (EvRequest (token_request (self Demo.idle) (VStr "https://idp.example/token")
                             (VStr "https://app.example/") (VStr "good")))
       Demo.idle)
  ∧ VStr "u1" = dict_get (<["access_token" := VStr "t"]> Demo.id_token_claims) "sub".
Proof.
  assert (Hrun : get_principal (H := Demo.host) (Demo.callback "good" "")
                   (Some ({[ "visits" := VInt 1 ]} : pydict)) 7 3 Demo.idle
                 = (Ok {| principal := VStr "u1";
                          credentials_out := <["access_token" := VStr "t"]> Demo.id_token_claims;
                          new_response := Some {| redirect_s := 7; redirect_c := "00003" |};
                          session_out :=
                            Some (<["nagare.credentials" := VDict {[ "sub" := VStr "u1" ]}]>
                                    ({[ "visits" := VInt 1 ]} : pydict));
                          request_out := Demo.callback "good" "" |},
                    log_event (EvRequest (token_request (self Demo.idle)
                                            (VStr "https://idp.example/token")
                                            (VStr "https://app.example/") (VStr "good")))
                      Demo.idle))
    by (vm_compute; reflexivity).
  split; [exact Hrun |].
  exact (proj1 (get_principal_answer (H := Demo.host) _ _ _ _ _ _ _ Hrun)).
Defined.

(** ** Key identifiers of any hashable kind *)

Section any_identifier.
Context `{Host}.

End any_identifier.

